(** * Verification of [app.py]: the informal-to-formal theorem converter

    The program is a Streamlit script.  One run of the script reads the
    process environment, draws widgets, and on a click of "Convert" sends one
    prompt to AWS Bedrock through [client.invoke_model].  The run is modelled
    as a function of the world it observes (environment, widget state, the
    behaviour of boto3) that produces the trace of its effects and either
    returns or is halted by [st.stop()]. *)

From Stdlib Require Import NArith ZArith List String Ascii Bool Lia.
From Stdlib Require Import Floats.
Import ListNotations.

Set Implicit Arguments.
Set Warnings "-inexact-float,-register-all".

(** ** Python strings *)

Module PyStr.

(** A Python [str] is a sequence of Unicode code points. *)
Definition pystr : Type := list N.

(** Source literals are written here as UTF-8 text; [utf8_decode] turns the
    bytes of such a literal into the code points Python sees. *)
Fixpoint utf8_decode (l : list N) {struct l} : list N :=
  match l with
  | [] => []
  | b0 :: r0 =>
      if (b0 <? 128)%N then b0 :: utf8_decode r0
      else
        match r0 with
        | [] => []
        | b1 :: r1 =>
            if (b0 <? 224)%N
            then ((b0 - 192) * 64 + (b1 - 128))%N :: utf8_decode r1
            else
              match r1 with
              | [] => []
              | b2 :: r2 =>
                  if (b0 <? 240)%N
                  then ((b0 - 224) * 4096 + (b1 - 128) * 64 + (b2 - 128))%N
                         :: utf8_decode r2
                  else
                    match r2 with
                    | [] => []
                    | b3 :: r3 =>
                        ((b0 - 240) * 262144 + (b1 - 128) * 4096
                         + (b2 - 128) * 64 + (b3 - 128))%N
                          :: utf8_decode r3
                    end
              end
        end
  end.

Definition py (s : string) : pystr :=
  utf8_decode (map N_of_ascii (list_ascii_of_string s)).

Definition eqb (a b : pystr) : bool :=
  if list_eq_dec N.eq_dec a b then true else false.

(** [bool(s)] for a [str]: the empty string is the only falsy one. *)
Definition truthy (s : pystr) : bool :=
  match s with [] => false | _ :: _ => true end.

(** [c.isspace()] as CPython's [_PyUnicode_IsWhitespace] decides it. *)
Definition isspace (c : N) : bool :=
  (((9 <=? c) && (c <=? 13)) || ((28 <=? c) && (c <=? 32))
   || (c =? 133) || (c =? 160) || (c =? 5760)
   || ((8192 <=? c) && (c <=? 8202))
   || (c =? 8232) || (c =? 8233) || (c =? 8239) || (c =? 8287)
   || (c =? 12288))%N.

Fixpoint lstrip (s : pystr) : pystr :=
  match s with
  | [] => []
  | c :: r => if isspace c then lstrip r else s
  end.

Definition rstrip (s : pystr) : pystr := rev (lstrip (rev s)).

(** [s.strip()] with no argument. *)
Definition strip (s : pystr) : pystr := rstrip (lstrip s).

(** [sub in s]. *)
Fixpoint startswith (p s : pystr) : bool :=
  match p, s with
  | [], _ => true
  | _ :: _, [] => false
  | a :: p', b :: s' => (a =? b)%N && startswith p' s'
  end.

Fixpoint contains (sub s : pystr) : bool :=
  startswith sub s
  || match s with [] => false | _ :: r => contains sub r end.

Definition endswith (p s : pystr) : bool := startswith (rev p) (rev s).

(** [s.split()] with no argument: the maximal runs of non-whitespace. *)
Fixpoint split_from (word : pystr) (s : pystr) : list pystr :=
  match s with
  | [] => match word with [] => [] | _ :: _ => [rev word] end
  | c :: r =>
      if isspace c
      then match word with
           | [] => split_from [] r
           | _ :: _ => rev word :: split_from [] r
           end
      else split_from (c :: word) r
  end.

Definition split (s : pystr) : list pystr := split_from [] s.

End PyStr.
Import PyStr.

(** ** Python values

    The values [json.loads] produces and [json.dumps] consumes.  A [dict] is
    the list of its items in insertion order. *)

Inductive pyval : Type :=
| PyNone
| PyBool (b : bool)
| PyInt (n : Z)
| PyFloat (f : float)
| PyStr (s : pystr)
| PyList (l : list pyval)
| PyDict (d : list (pystr * pyval)).

(** [bool(v)], the test an [if v] performs. *)
Definition truth (v : pyval) : bool :=
  match v with
  | PyNone => false
  | PyBool b => b
  | PyInt n => negb (n =? 0)%Z
  | PyFloat f => negb (PrimFloat.eqb f 0%float)
  | PyStr s => truthy s
  | PyList l => match l with [] => false | _ :: _ => true end
  | PyDict d => match d with [] => false | _ :: _ => true end
  end.

(** [os.getenv] returns [None] or a [str]. *)
Definition truthy_opt (o : option pystr) : bool :=
  match o with None => false | Some s => truthy s end.

(** [all([...])]. *)
Definition all (l : list bool) : bool := forallb (fun b => b) l.

(** [d.get(key)]: the value stored under [key], [None] when there is none. *)
Fixpoint dict_get (d : list (pystr * pyval)) (key : pystr) : pyval :=
  match d with
  | [] => PyNone
  | (k, v) :: r => if PyStr.eqb k key then v else dict_get r key
  end.

(** [type(v).__name__]. *)
Definition type_name (v : pyval) : pystr :=
  match v with
  | PyNone => py "NoneType"
  | PyBool _ => py "bool"
  | PyInt _ => py "int"
  | PyFloat _ => py "float"
  | PyStr _ => py "str"
  | PyList _ => py "list"
  | PyDict _ => py "dict"
  end.

(** [str(e)] of the [AttributeError] raised by [v.attr] when the type of [v]
    has no attribute [attr]. *)
Definition attribute_error (v : pyval) (attr : pystr) : pystr :=
  py "'" ++ type_name v ++ py "' object has no attribute '" ++ attr ++ py "'".

(** A JSON document is identified with the value it encodes: [json_dumps]
    builds the document, [json_loads] reads it back. *)
Record json_document : Type := json_dumps { json_loads : pyval }.

(** ** The world one script run observes *)

(** What [client.invoke_model(...)] followed by
    [json.loads(response.get('body').read())] does. *)
Inductive invoke_outcome : Type :=
| Responds (response_body : pyval)
    (* the call returns and its body decodes to [response_body] *)
| RaisesClientError (error_code error_message : pystr)
    (* botocore's ClientError; the two fields are
       e.response['Error']['Code'] and e.response['Error']['Message'] *)
| RaisesException (str_e : pystr).
    (* any other Exception of the call, the read or the decoding *)

Record request : Type := mkRequest {
  body : json_document;
  modelId : option pystr;
  accept : pystr;
  contentType : pystr
}.

Record bedrock_client : Type := mkClient {
  invoke_model : request -> invoke_outcome
}.

Record world : Type := mkWorld {
  (* os.environ once load_dotenv() has run *)
  environ : pystr -> option pystr;
  (* boto3.Session(...).client('bedrock-runtime'): the client, or str(e) of
     the exception it raises *)
  boto3_client :
    option pystr -> option pystr -> option pystr -> pystr + bedrock_client;
  (* the text the text area with this label returns, and whether the
     button with this label was clicked *)
  text_area_value : pystr -> pystr;
  button_clicked : pystr -> bool
}.

(** ** Effects *)

Inductive event : Type :=
| EvGetenv (name : pystr)
| EvSession (key secret region : option pystr)
| EvInvokeModel (r : request)
| EvSetPageConfig (page_title page_icon : pystr)
| EvTitle (text : pystr)
| EvWrite (text : pystr)
| EvTextArea (label value : pystr)
| EvButton (label : pystr)
| EvSpinner (text : pystr)
| EvSubheader (text : pystr)
| EvCode (text language : pystr)
| EvMarkdown (text : pystr)
| EvWarning (msg : pystr)
| EvError (msg : pystr).

(** A run either returns a value or is cut short by [st.stop()]. *)
Inductive outcome (A : Type) : Type :=
| Returned (a : A)
| Stopped.
Arguments Stopped {A}.

Definition script (A : Type) : Type := (list event * outcome A)%type.

Definition ret {A} (a : A) : script A := ([], Returned a).

Definition bind {A B} (m : script A) (k : A -> script B) : script B :=
  match m with
  | (t, Returned a) => (t ++ fst (k a), snd (k a))
  | (t, Stopped) => (t, Stopped)
  end.

Definition emit (e : event) : script unit := ([e], Returned tt).

Notation "x <- m ;; k" := (bind m (fun x => k))
  (at level 61, m at next level, right associativity).
Notation "m ;; k" := (bind m (fun _ => k))
  (at level 61, right associativity).

Fixpoint for_each {A} (l : list A) (f : A -> script unit) : script unit :=
  match l with
  | [] => ret tt
  | x :: r => f x ;; for_each r f
  end.

Definition trace {A} (m : script A) : list event := fst m.
Definition result {A} (m : script A) : outcome A := snd m.

(** *** The library calls the script makes *)

Definition os_getenv (w : world) (name : pystr) : script (option pystr) :=
  emit (EvGetenv name) ;; ret (environ w name).

Definition st_error (msg : pystr) : script unit := emit (EvError msg).
Definition st_warning (msg : pystr) : script unit := emit (EvWarning msg).
Definition st_stop {A} : script A := ([], Stopped).
Definition st_set_page_config (page_title page_icon : pystr) : script unit :=
  emit (EvSetPageConfig page_title page_icon).
Definition st_title (text : pystr) : script unit := emit (EvTitle text).
Definition st_write (text : pystr) : script unit := emit (EvWrite text).
Definition st_subheader (text : pystr) : script unit := emit (EvSubheader text).
Definition st_markdown (text : pystr) : script unit := emit (EvMarkdown text).
Definition st_spinner (text : pystr) : script unit := emit (EvSpinner text).
Definition st_code (text language : pystr) : script unit :=
  emit (EvCode text language).
Definition st_text_area (w : world) (label value : pystr) : script pystr :=
  emit (EvTextArea label value) ;; ret (text_area_value w label).
Definition st_button (w : world) (label : pystr) : script bool :=
  emit (EvButton label) ;; ret (button_clicked w label).

Definition session_client (w : world) (key secret region : option pystr)
  : script (pystr + bedrock_client) :=
  emit (EvSession key secret region) ;; ret (boto3_client w key secret region).

Definition client_invoke_model (client : bedrock_client) (r : request)
  : script invoke_outcome :=
  emit (EvInvokeModel r) ;; ret (invoke_model client r).

(** ** The program *)

Definition CREDENTIALS_NOT_FOUND : pystr :=
  py "AWS credentials or region not found. Please set them in your environment or .env file.".

Definition MODEL_ID_NOT_FOUND : pystr :=
  py "BEDROCK_MODEL_ID not found. Please set it in your environment or .env file.".

(** [boto3.Session(...)] and [session.client(...)] sit in one [try]; its
    handler reports the exception and halts. *)
Definition initialize_bedrock_client (w : world) : script bedrock_client :=
  aws_access_key_id <- os_getenv w (py "AWS_ACCESS_KEY_ID") ;;
  aws_secret_access_key <- os_getenv w (py "AWS_SECRET_ACCESS_KEY") ;;
  aws_region <- os_getenv w (py "AWS_REGION") ;;
  (if negb (all [truthy_opt aws_access_key_id;
                 truthy_opt aws_secret_access_key;
                 truthy_opt aws_region])
   then st_error CREDENTIALS_NOT_FOUND ;; st_stop
   else ret tt) ;;
  c <- session_client w aws_access_key_id aws_secret_access_key aws_region ;;
  match c with
  | inr client => ret client
  | inl str_e =>
      st_error (py "Failed to initialize AWS Bedrock client: " ++ str_e) ;;
      st_stop
  end.

(** The two halves of the f-string around [{informal_statement}]. *)
Definition PROMPT_HEAD : pystr :=
  py "As an expert in mathematical theorem formalization, your task is to convert the given informal mathematical statement into a formal theorem statement in Lean. Follow these guidelines:

1. Use proper Lean syntax and notation.
2. Include appropriate type declarations for variables.
3. Use Unicode characters for mathematical symbols where applicable.
4. Structure the theorem statement logically, using implications (→) or biconditionals (↔) as needed.
5. If the statement involves multiple conditions or parts, use appropriate logical connectives (∧, ∨, ¬).
6. For statements about sets or types, use appropriate quantifiers (∀, ∃) and set notation.
7. If the statement involves specific mathematical concepts (e.g., primality, divisibility), use the corresponding Lean functions or definitions.

Informal statement: ".

Definition PROMPT_TAIL : pystr :=
  py "

Formal Lean theorem:".

Definition prompt_of (informal_statement : pystr) : pystr :=
  PROMPT_HEAD ++ informal_statement ++ PROMPT_TAIL.

Definition payload (prompt : pystr) : pyval :=
  PyDict [(py "prompt", PyStr prompt);
          (py "max_gen_len", PyInt 300);
          (py "temperature", PyFloat 0.2);
          (py "top_p", PyFloat 0.95)].

Definition CONVERSION_FAILED : pystr := py "Conversion failed.".

Definition api_error (error_code error_message : pystr) : pystr :=
  py "AWS Bedrock API error: " ++ error_code ++ py " - " ++ error_message.

Definition call_error (str_e : pystr) : pystr :=
  py "An error occurred while calling the AWS Bedrock API: " ++ str_e.

(** The [try] block is the request, the call and the reading of the
    response; the three last branches are its [except] handlers and the
    final [return None].  A [generation] that is truthy and not a [str] has
    no [strip], and a body that is not a [dict] has no [get]: both raise an
    [AttributeError] inside the [try], which [except Exception] reports. *)
Definition bedrock_llama_response
    (w : world) (client : bedrock_client) (informal_statement : pystr)
  : script (option pystr) :=
  model_id <- os_getenv w (py "BEDROCK_MODEL_ID") ;;
  (if negb (truthy_opt model_id)
   then st_error MODEL_ID_NOT_FOUND ;; st_stop
   else ret tt) ;;
  let prompt := prompt_of informal_statement in
  let body := json_dumps (payload prompt) in
  response <- client_invoke_model client
                (mkRequest body model_id
                   (py "application/json") (py "application/json")) ;;
  match response with
  | Responds response_body =>
      match response_body with
      | PyDict d =>
          let formal_statement := dict_get d (py "generation") in
          if truth formal_statement then
            match formal_statement with
            | PyStr s => ret (Some (strip s))
            | v => st_error (call_error (attribute_error v (py "strip"))) ;;
                   ret None
            end
          else ret (Some CONVERSION_FAILED)
      | v => st_error (call_error (attribute_error v (py "get"))) ;;
             ret None
      end
  | RaisesClientError error_code error_message =>
      st_error (api_error error_code error_message) ;; ret None
  | RaisesException str_e =>
      st_error (call_error str_e) ;; ret None
  end.

Definition STATEMENT_LABEL : pystr := py "Enter informal mathematical statement:".

Definition EMPTY_INPUT_WARNING : pystr :=
  py "Please enter a mathematical statement to convert.".

Definition samples : list pystr :=
  [py "The golden ratio is irrational.";
   py "There are no perfect squares strictly between m² and (m+1)²";
   py "The only numbers with empty prime factorization are 0 and 1";
   py "Odd Bernoulli numbers (greater than 1) are zero.";
   py "A natural number is odd iff it has residue 1 or 3 mod 4"].

(** The loop over [samples] that ends [main]. *)
Definition sample_buttons (w : world) : script unit :=
  for_each samples (fun sample =>
    clicked <- st_button w (py "Try: " ++ sample) ;;
    if clicked then st_text_area w (py "Informal statement:") sample ;; ret tt
    else ret tt).

(** The body of [if st.button("Convert"):]. *)
Definition convert_clicked (w : world) (client : bedrock_client)
    (informal_statement : pystr) : script unit :=
  if truthy informal_statement then
    st_spinner (py "Converting...") ;;
    formal_statement <- bedrock_llama_response w client informal_statement ;;
    match formal_statement with
    | Some text =>
        if truthy text then
          st_subheader (py "Formal Theorem Statement:") ;;
          st_code text (py "lean")
        else ret tt
    | None => ret tt
    end
  else st_warning EMPTY_INPUT_WARNING.

(** The main text area is created without [value], which the widget takes
    to be the empty string; its [height] and [placeholder], like the [key]
    of the sample areas, are layout and are not recorded. *)
Definition main (w : world) : script unit :=
  st_set_page_config (py "Math Theorem Converter (AWS Bedrock)") (py "🧮") ;;
  st_title (py "Informal to Formal Math Theorem Converter") ;;
  st_write (py "This app converts informal mathematical statements to formal theorem statements in Lean using AWS Bedrock's Llama model.") ;;
  client <- initialize_bedrock_client w ;;
  informal_statement <- st_text_area w STATEMENT_LABEL [] ;;
  convert <- st_button w (py "Convert") ;;
  (if convert then convert_clicked w client informal_statement else ret tt) ;;
  st_markdown (py "---") ;;
  st_subheader (py "Sample Inputs:") ;;
  sample_buttons w.

(** ** The template as the specification prints it

    The text of the specification's section on external interfaces, with
    [{statement}] marking the place of the input.  It is kept apart from
    [PROMPT_HEAD] and [PROMPT_TAIL], which are the source's. *)

Definition SPEC_TEMPLATE_HEAD : pystr :=
  py "As an expert in mathematical theorem formalization, your task is to convert
the given informal mathematical statement into a formal theorem statement
in Lean. Follow these guidelines:
1. Use proper Lean syntax and notation.
2. Include appropriate type declarations for variables.
3. Use Unicode characters for mathematical symbols where applicable.
4. Structure the theorem statement logically, using implications (→) or
   biconditionals (↔) as needed.
5. If the statement involves multiple conditions or parts, use appropriate
   logical connectives (∧, ∨, ¬).
6. For statements about sets or types, use appropriate quantifiers
   (∀, ∃) and set notation.
7. If the statement involves specific mathematical concepts (e.g.,
   primality, divisibility), use the corresponding functions or definitions.

Informal statement: ".

Definition SPEC_TEMPLATE_TAIL : pystr :=
  py "

Formal theorem:".

Definition spec_prompt_of (statement : pystr) : pystr :=
  SPEC_TEMPLATE_HEAD ++ statement ++ SPEC_TEMPLATE_TAIL.

(** ** Concrete worlds *)

Fixpoint env_of (l : list (pystr * pystr)) (name : pystr) : option pystr :=
  match l with
  | [] => None
  | (k, v) :: r => if PyStr.eqb k name then Some v else env_of r name
  end.

Definition credentials : list (pystr * pystr) :=
  [(py "AWS_ACCESS_KEY_ID", py "AKIAEXAMPLE");
   (py "AWS_SECRET_ACCESS_KEY", py "secret");
   (py "AWS_REGION", py "us-east-1")].

Definition full_env : pystr -> option pystr :=
  env_of (credentials ++ [(py "BEDROCK_MODEL_ID", py "meta.llama3-8b-instruct-v1:0")]).

Definition env_without_model : pystr -> option pystr := env_of credentials.

Definition answering (o : invoke_outcome) : bedrock_client :=
  mkClient (fun _ => o).

(** A run in which the text area holds [text] and the button labelled
    [clicked], if any, was pressed. *)
Definition run_with (env : pystr -> option pystr) (client : bedrock_client)
    (text : pystr) (clicked : option pystr) : world :=
  mkWorld env (fun _ _ _ => inr client) (fun _ => text)
    (fun label => match clicked with
                  | Some l => PyStr.eqb label l
                  | None => false
                  end).

Definition generation (g : pystr) : invoke_outcome :=
  Responds (PyDict [(py "generation", PyStr g)]).

Unset Implicit Arguments.

(** ** What a trace shows *)

Fixpoint requests (t : list event) : list request :=
  match t with
  | [] => []
  | EvInvokeModel r :: t' => r :: requests t'
  | _ :: t' => requests t'
  end.

Fixpoint errors (t : list event) : list pystr :=
  match t with
  | [] => []
  | EvError msg :: t' => msg :: errors t'
  | _ :: t' => errors t'
  end.

Fixpoint warnings (t : list event) : list pystr :=
  match t with
  | [] => []
  | EvWarning msg :: t' => msg :: warnings t'
  | _ :: t' => warnings t'
  end.

(** The texts rendered in the result area by [st.code]. *)
Fixpoint rendered (t : list event) : list pystr :=
  match t with
  | [] => []
  | EvCode text _ :: t' => text :: rendered t'
  | _ :: t' => rendered t'
  end.

Fixpoint env_reads (t : list event) : list pystr :=
  match t with
  | [] => []
  | EvGetenv name :: t' => name :: env_reads t'
  | _ :: t' => env_reads t'
  end.

(** The [prompt] entry of the dict a request body encodes. *)
Definition request_prompt (r : request) : pyval :=
  match json_loads (body r) with
  | PyDict d => dict_get d (py "prompt")
  | _ => PyNone
  end.

(** A string that neither starts nor ends with a whitespace character. *)
Definition no_outer_whitespace (s : pystr) : Prop :=
  (forall c r, s = c :: r -> isspace c = false)
  /\ (forall c r, s = r ++ [c] -> isspace c = false).

Definition whitespace_only (s : pystr) : bool := forallb isspace s.

(** The request [bedrock_llama_response] hands to [client.invoke_model]. *)
Definition request_for (w : world) (informal_statement : pystr) : request :=
  mkRequest (json_dumps (payload (prompt_of informal_statement)))
    (environ w (py "BEDROCK_MODEL_ID"))
    (py "application/json") (py "application/json").

(** What the code after the call makes of its outcome. *)
Definition conclude (o : invoke_outcome) : script (option pystr) :=
  match o with
  | Responds (PyDict d) =>
      match dict_get d (py "generation") with
      | PyStr [] => ret (Some CONVERSION_FAILED)
      | PyStr s => ret (Some (strip s))
      | v => if truth v
             then st_error (call_error (attribute_error v (py "strip"))) ;;
                  ret None
             else ret (Some CONVERSION_FAILED)
      end
  | Responds v => st_error (call_error (attribute_error v (py "get"))) ;;
                  ret None
  | RaisesClientError error_code error_message =>
      st_error (api_error error_code error_message) ;; ret None
  | RaisesException str_e => st_error (call_error str_e) ;; ret None
  end.

(** The part of [main] before [initialize_bedrock_client]. *)
Definition page_header : list event :=
  [EvSetPageConfig (py "Math Theorem Converter (AWS Bedrock)") (py "🧮");
   EvTitle (py "Informal to Formal Math Theorem Converter");
   EvWrite (py "This app converts informal mathematical statements to formal theorem statements in Lean using AWS Bedrock's Llama model.")].

(** The part of [main] from the click test on. *)
Definition after_widgets (w : world) (client : bedrock_client) : script unit :=
  (if button_clicked w (py "Convert")
   then convert_clicked w client (text_area_value w STATEMENT_LABEL)
   else ret tt) ;;
  st_markdown (py "---") ;;
  st_subheader (py "Sample Inputs:") ;;
  sample_buttons w.

Definition credential_reads : list event :=
  [EvGetenv (py "AWS_ACCESS_KEY_ID");
   EvGetenv (py "AWS_SECRET_ACCESS_KEY");
   EvGetenv (py "AWS_REGION")].

Definition credentials_present (w : world) : bool :=
  all [truthy_opt (environ w (py "AWS_ACCESS_KEY_ID"));
       truthy_opt (environ w (py "AWS_SECRET_ACCESS_KEY"));
       truthy_opt (environ w (py "AWS_REGION"))].

Definition model_id_present (w : world) : bool :=
  truthy_opt (environ w (py "BEDROCK_MODEL_ID")).

(** The session call [initialize_bedrock_client] makes. *)
Definition session_of (w : world) : pystr + bedrock_client :=
  boto3_client w (environ w (py "AWS_ACCESS_KEY_ID"))
    (environ w (py "AWS_SECRET_ACCESS_KEY")) (environ w (py "AWS_REGION")).

Definition session_event (w : world) : event :=
  EvSession (environ w (py "AWS_ACCESS_KEY_ID"))
    (environ w (py "AWS_SECRET_ACCESS_KEY")) (environ w (py "AWS_REGION")).

(** Startup went through and produced [client]. *)
Definition started (w : world) (client : bedrock_client) : Prop :=
  credentials_present w = true /\ session_of w = inr client.

(** Events that only draw or read a widget. *)
Definition is_widget (e : event) : bool :=
  match e with
  | EvButton _ | EvTextArea _ _ | EvMarkdown _ | EvSubheader _ => true
  | _ => false
  end.

(** The statement a click on [Convert] submits in this run, if there is
    such a click. *)
Definition submitted (w : world) : option pystr :=
  if button_clicked w (py "Convert")
  then Some (text_area_value w STATEMENT_LABEL)
  else None.

(** ** Further shapes of values and worlds *)

Definition is_str (v : pyval) : bool :=
  match v with PyStr _ => true | _ => false end.

Definition is_dict (v : pyval) : bool :=
  match v with PyDict _ => true | _ => false end.

(** A run like [run_with] in which creating the boto3 client raises an
    exception whose [str] is [str_e]. *)
Definition run_without_session (env : pystr -> option pystr) (str_e : pystr)
    (text : pystr) (clicked : option pystr) : world :=
  mkWorld env (fun _ _ _ => inl str_e) (fun _ => text)
    (fun label => match clicked with
                  | Some l => PyStr.eqb label l
                  | None => false
                  end).

(** What one round of the loop over [samples] draws. *)
Definition sample_row (w : world) (sample : pystr) : list event :=
  EvButton (py "Try: " ++ sample)
    :: if button_clicked w (py "Try: " ++ sample)
       then [EvTextArea (py "Informal statement:") sample]
       else [].

(** What [main] shows to the user in a run: results, errors, warnings. *)
Definition messages (t : list event) : nat :=
  List.length (rendered t) + List.length (errors t)
  + List.length (warnings t).

(** * Proofs *)

(** ** Checks of the string model *)

Example py_decodes_arrow : py "(→)" = [40; 8594; 41]%N.
Proof. reflexivity. Qed.

Example py_decodes_abacus : py "🧮" = [129518]%N.
Proof. reflexivity. Qed.

Example strip_foo : strip (py "  foo  ") = py "foo".
Proof. reflexivity. Qed.

Example strip_no_break_space : strip (160%N :: py "a b" ++ [8195%N]) = py "a b".
Proof. reflexivity. Qed.

Example source_tail : PROMPT_TAIL = 10%N :: 10%N :: py "Formal Lean theorem:".
Proof. reflexivity. Qed.

(** ** Facts about [strip] *)

Section Strip.

Lemma lstrip_split (s : pystr) :
  exists ws, s = ws ++ lstrip s /\ whitespace_only ws = true.
Proof.
  induction s as [|c r IH]; simpl.
  - exists []. split; reflexivity.
  - destruct (isspace c) eqn:Hc.
    + destruct IH as [ws [E W]]. exists (c :: ws). split.
      * simpl. now rewrite <- E.
      * simpl. now rewrite Hc, W.
    + exists []. split; reflexivity.
Qed.

Lemma lstrip_head (s : pystr) c r : lstrip s = c :: r -> isspace c = false.
Proof.
  induction s as [|a s IH]; simpl; [discriminate|].
  destruct (isspace a) eqn:Ha; [exact IH|].
  intros E. injection E as -> _. exact Ha.
Qed.

Lemma rstrip_split (s : pystr) :
  exists ws, s = rstrip s ++ ws /\ whitespace_only ws = true.
Proof.
  unfold rstrip. destruct (lstrip_split (rev s)) as [ws [E W]].
  exists (rev ws). split.
  - rewrite <- rev_app_distr, <- E. symmetry. apply rev_involutive.
  - unfold whitespace_only in *. rewrite forallb_forall in *.
    intros x Hx. apply W. now apply in_rev.
Qed.

Lemma rstrip_last (s : pystr) c r : rstrip s = r ++ [c] -> isspace c = false.
Proof.
  unfold rstrip. intros E.
  apply (f_equal (@rev N)) in E.
  rewrite rev_involutive, rev_app_distr in E. simpl in E.
  exact (lstrip_head _ _ _ E).
Qed.

Lemma rstrip_head (s : pystr) c r :
  (forall c' r', s = c' :: r' -> isspace c' = false) ->
  rstrip s = c :: r -> isspace c = false.
Proof.
  intros H E. destruct (rstrip_split s) as [ws [D _]].
  rewrite E in D. simpl in D. exact (H _ _ D).
Qed.

Lemma strip_trimmed (s : pystr) : no_outer_whitespace (strip s).
Proof.
  unfold strip. split; intros c r E.
  - apply (rstrip_head (lstrip s) c r); [|exact E].
    intros c' r' E'. exact (lstrip_head _ _ _ E').
  - exact (rstrip_last _ _ _ E).
Qed.

Lemma strip_split (s : pystr) :
  exists l r, s = l ++ strip s ++ r
              /\ whitespace_only l = true /\ whitespace_only r = true.
Proof.
  destruct (lstrip_split s) as [l [El Wl]].
  destruct (rstrip_split (lstrip s)) as [r [Er Wr]].
  exists l, r. unfold strip. now rewrite <- Er, <- El.
Qed.

End Strip.

(** ** Equations of the script monad *)

Arguments py : simpl never.

(** Runs the monadic plumbing of a script and nothing else. *)
Ltac run_script :=
  cbn [bind ret emit trace result fst snd app
       os_getenv st_error st_warning st_stop st_set_page_config st_title
       st_write st_subheader st_markdown st_spinner st_code st_text_area
       st_button session_client client_invoke_model].

(** Pushes the observers of a trace through its concatenations. *)
Ltac observe lem :=
  unfold page_header, credential_reads, session_event;
  repeat progress
    (rewrite ?lem; cbn [errors rendered warnings requests env_reads app]).

Section Monad.

Context {A B : Type}.

Lemma bind_returned (t : list event) (a : A) (k : A -> script B) :
  bind (t, Returned a) k = (t ++ trace (k a), result (k a)).
Proof. reflexivity. Qed.

Lemma bind_stopped (t : list event) (k : A -> script B) :
  bind (t, Stopped) k = (t, Stopped).
Proof. reflexivity. Qed.

Lemma trace_bind (m : script A) (k : A -> script B) :
  trace (bind m k)
  = trace m ++ match result m with
               | Returned a => trace (k a)
               | Stopped => []
               end.
Proof.
  destruct m as [t [a|]]; unfold trace, result; simpl.
  - reflexivity.
  - now rewrite app_nil_r.
Qed.

Lemma result_bind (m : script A) (k : A -> script B) :
  result (bind m k)
  = match result m with
    | Returned a => result (k a)
    | Stopped => Stopped
    end.
Proof.
  destruct m as [t [a|]]; reflexivity.
Qed.

End Monad.

Lemma requests_app (t u : list event) :
  requests (t ++ u) = requests t ++ requests u.
Proof.
  induction t as [|e t IH]; [reflexivity|].
  destruct e; simpl; now rewrite IH.
Qed.

Lemma errors_app (t u : list event) : errors (t ++ u) = errors t ++ errors u.
Proof.
  induction t as [|e t IH]; [reflexivity|].
  destruct e; simpl; now rewrite IH.
Qed.

Lemma rendered_app (t u : list event) :
  rendered (t ++ u) = rendered t ++ rendered u.
Proof.
  induction t as [|e t IH]; [reflexivity|].
  destruct e; simpl; now rewrite IH.
Qed.

Lemma warnings_app (t u : list event) :
  warnings (t ++ u) = warnings t ++ warnings u.
Proof.
  induction t as [|e t IH]; [reflexivity|].
  destruct e; simpl; now rewrite IH.
Qed.

Lemma env_reads_app (t u : list event) :
  env_reads (t ++ u) = env_reads t ++ env_reads u.
Proof.
  induction t as [|e t IH]; [reflexivity|].
  destruct e; simpl; now rewrite IH.
Qed.

(** ** The conversion call *)

Section Conversion.

Variables (w : world) (client : bedrock_client) (s : pystr).

Lemma llama_unconfigured :
  truthy_opt (environ w (py "BEDROCK_MODEL_ID")) = false ->
  bedrock_llama_response w client s
  = ([EvGetenv (py "BEDROCK_MODEL_ID"); EvError MODEL_ID_NOT_FOUND], Stopped).
Proof.
  intros H. unfold bedrock_llama_response, os_getenv, emit, ret, bind.
  simpl. rewrite H. reflexivity.
Qed.

Lemma llama_configured :
  truthy_opt (environ w (py "BEDROCK_MODEL_ID")) = true ->
  bedrock_llama_response w client s
  = (EvGetenv (py "BEDROCK_MODEL_ID") :: EvInvokeModel (request_for w s)
       :: trace (conclude (invoke_model client (request_for w s))),
     result (conclude (invoke_model client (request_for w s)))).
Proof.
  intros H.
  unfold bedrock_llama_response, os_getenv, client_invoke_model, emit, ret.
  unfold bind at 1 2. simpl. rewrite H. simpl.
  fold (request_for w s).
  destruct (invoke_model client (request_for w s)) as [v | code msg | e];
    [|reflexivity|reflexivity].
  destruct v as [ | b | n | f | g | l | d]; try reflexivity.
  simpl. destruct (dict_get d (py "generation")) as [ | b | n | f | g | l | d'];
    simpl; try reflexivity.
  all: match goal with
       | |- context [if ?c then _ else _] => destruct c; reflexivity
       | |- context [match ?x with [] => _ | _ :: _ => _ end] =>
           destruct x; reflexivity
       end.
Qed.

End Conversion.

Lemma conclude_trace (o : invoke_outcome) :
  requests (trace (conclude o)) = [] /\ rendered (trace (conclude o)) = []
  /\ warnings (trace (conclude o)) = [] /\ env_reads (trace (conclude o)) = [].
Proof.
  destruct o as [v | code msg | e]; [|repeat split ..].
  destruct v as [ | b | n | f | g | l | d]; try (repeat split).
  all: simpl; destruct (dict_get d (py "generation")) as [ | b | n | f | g | l | d'];
    simpl; try reflexivity.
  all: match goal with
       | |- context [if ?c then _ else _] => destruct c; reflexivity
       | |- context [match ?g with [] => _ | _ :: _ => _ end] =>
           destruct g; reflexivity
       end.
Qed.

(** ** Startup *)

Section Startup.

Variable w : world.

Lemma initialize_without_credentials :
  credentials_present w = false ->
  initialize_bedrock_client w
  = (credential_reads ++ [EvError CREDENTIALS_NOT_FOUND], Stopped).
Proof.
  intros H. unfold initialize_bedrock_client. run_script.
  unfold credentials_present in H. rewrite H. reflexivity.
Qed.

Lemma initialize_with_credentials :
  credentials_present w = true ->
  initialize_bedrock_client w
  = match session_of w with
    | inr client => (credential_reads ++ [session_event w], Returned client)
    | inl str_e =>
        (credential_reads
           ++ [session_event w;
               EvError (py "Failed to initialize AWS Bedrock client: " ++ str_e)],
         Stopped)
    end.
Proof.
  intros H. unfold initialize_bedrock_client. run_script.
  unfold credentials_present in H. rewrite H. cbn [negb]. run_script.
  unfold session_of. now destruct (boto3_client w _ _ _).
Qed.

Lemma initialize_started (client : bedrock_client) :
  started w client ->
  initialize_bedrock_client w
  = (credential_reads ++ [session_event w], Returned client).
Proof.
  intros [Hc Hs]. rewrite (initialize_with_credentials Hc). now rewrite Hs.
Qed.

Lemma initialize_quiet :
  requests (trace (initialize_bedrock_client w)) = []
  /\ env_reads (trace (initialize_bedrock_client w))
     = [py "AWS_ACCESS_KEY_ID"; py "AWS_SECRET_ACCESS_KEY"; py "AWS_REGION"].
Proof.
  destruct (credentials_present w) eqn:H.
  - rewrite (initialize_with_credentials H).
    destruct (session_of w); split; reflexivity.
  - rewrite (initialize_without_credentials H). split; reflexivity.
Qed.

End Startup.

(** ** The page *)

Lemma widgets_quiet (t : list event) :
  forallb is_widget t = true ->
  requests t = [] /\ errors t = [] /\ rendered t = []
  /\ warnings t = [] /\ env_reads t = [].
Proof.
  induction t as [|e t IH]; [now repeat split|].
  simpl. intros H. apply andb_prop in H. destruct H as [He Ht].
  destruct e; try discriminate He; simpl; exact (IH Ht).
Qed.

Section Page.

Variable w : world.

Lemma for_each_buttons (l : list pystr) :
  let m := for_each l (fun sample =>
             clicked <- st_button w (py "Try: " ++ sample) ;;
             if clicked
             then st_text_area w (py "Informal statement:") sample ;; ret tt
             else ret tt) in
  result m = Returned tt /\ forallb is_widget (trace m) = true.
Proof.
  induction l as [|x l [IHr IHt]]; [split; reflexivity|].
  cbn [for_each]. rewrite result_bind, trace_bind.
  unfold st_button, st_text_area, emit, ret, bind; simpl.
  destruct (button_clicked w _); simpl; split; assumption.
Qed.

Lemma sample_buttons_quiet :
  result (sample_buttons w) = Returned tt
  /\ forallb is_widget (trace (sample_buttons w)) = true.
Proof. exact (for_each_buttons samples). Qed.

Lemma main_eq :
  main w
  = match initialize_bedrock_client w with
    | (t, Returned client) =>
        (page_header ++ t
           ++ [EvTextArea STATEMENT_LABEL []; EvButton (py "Convert")]
           ++ trace (after_widgets w client),
         result (after_widgets w client))
    | (t, Stopped) => (page_header ++ t, Stopped)
    end.
Proof.
  unfold main, st_set_page_config, st_title, st_write, emit.
  rewrite !bind_returned.
  destruct (initialize_bedrock_client w) as [t [client|]].
  - rewrite bind_returned. unfold st_text_area, st_button, emit, ret.
    rewrite !bind_returned. reflexivity.
  - rewrite bind_stopped. reflexivity.
Qed.

Lemma after_widgets_eq (client : bedrock_client) :
  after_widgets w client
  = let m := if button_clicked w (py "Convert")
             then convert_clicked w client (text_area_value w STATEMENT_LABEL)
             else ret tt in
    match result m with
    | Returned _ =>
        (trace m ++ [EvMarkdown (py "---"); EvSubheader (py "Sample Inputs:")]
           ++ trace (sample_buttons w),
         Returned tt)
    | Stopped => (trace m, Stopped)
    end.
Proof.
  unfold after_widgets. cbv zeta.
  destruct (if button_clicked w (py "Convert") then _ else _) as [t [[]|]].
  - rewrite bind_returned. unfold st_markdown, st_subheader, emit.
    rewrite !bind_returned.
    destruct sample_buttons_quiet as [R _].
    unfold trace, result in *; simpl. rewrite R. reflexivity.
  - reflexivity.
Qed.

Lemma convert_clicked_empty (client : bedrock_client) :
  convert_clicked w client [] = ([EvWarning EMPTY_INPUT_WARNING], Returned tt).
Proof. reflexivity. Qed.

Lemma convert_clicked_nonempty (client : bedrock_client) (s : pystr) :
  s <> [] ->
  convert_clicked w client s
  = let m := bedrock_llama_response w client s in
    (EvSpinner (py "Converting...") :: trace m
       ++ match result m with
          | Returned (Some text) =>
              if truthy text
              then [EvSubheader (py "Formal Theorem Statement:");
                    EvCode text (py "lean")]
              else []
          | _ => []
          end,
     match result m with
     | Returned _ => Returned tt
     | Stopped => Stopped
     end).
Proof.
  intros Hs. unfold convert_clicked.
  destruct s as [|c r]; [now elim Hs|]. cbn [truthy]. cbv zeta.
  unfold st_spinner, emit. rewrite bind_returned.
  destruct (bedrock_llama_response w client (c :: r)) as [t [[text|]|]];
    unfold trace, result; simpl.
  - destruct (truthy text); simpl; [reflexivity | now rewrite app_nil_r].
  - reflexivity.
  - now rewrite app_nil_r.
Qed.

End Page.

(** ** Requests and environment reads of a run *)

Section Observations.

Variable w : world.

Lemma llama_requests (client : bedrock_client) (s : pystr) :
  requests (trace (bedrock_llama_response w client s))
  = if model_id_present w then [request_for w s] else [].
Proof.
  unfold model_id_present.
  destruct (truthy_opt (environ w (py "BEDROCK_MODEL_ID"))) eqn:H.
  - rewrite (llama_configured w client s H). cbn [trace fst requests].
    now destruct (conclude_trace (invoke_model client (request_for w s)))
      as [-> _].
  - now rewrite (llama_unconfigured w client s H).
Qed.

Lemma llama_env_reads (client : bedrock_client) (s : pystr) :
  env_reads (trace (bedrock_llama_response w client s))
  = [py "BEDROCK_MODEL_ID"].
Proof.
  destruct (truthy_opt (environ w (py "BEDROCK_MODEL_ID"))) eqn:H.
  - rewrite (llama_configured w client s H). cbn [trace fst env_reads].
    now destruct (conclude_trace (invoke_model client (request_for w s)))
      as (_ & _ & _ & ->).
  - now rewrite (llama_unconfigured w client s H).
Qed.

Lemma convert_clicked_requests (client : bedrock_client) (s : pystr) :
  requests (trace (convert_clicked w client s))
  = if truthy s && model_id_present w then [request_for w s] else [].
Proof.
  destruct s as [|c r]; [reflexivity|].
  rewrite convert_clicked_nonempty by discriminate.
  cbv zeta. cbn [trace fst requests truthy andb]. rewrite requests_app.
  rewrite llama_requests.
  destruct (result (bedrock_llama_response w client (c :: r))) as [[text|]|];
    try (now rewrite app_nil_r).
  destruct (truthy text); now rewrite app_nil_r.
Qed.

Lemma convert_clicked_env_reads (client : bedrock_client) (s : pystr) :
  env_reads (trace (convert_clicked w client s))
  = if truthy s then [py "BEDROCK_MODEL_ID"] else [].
Proof.
  destruct s as [|c r]; [reflexivity|].
  rewrite convert_clicked_nonempty by discriminate.
  cbv zeta. cbn [trace fst env_reads truthy]. rewrite env_reads_app.
  rewrite llama_env_reads.
  destruct (result (bedrock_llama_response w client (c :: r))) as [[text|]|];
    try reflexivity.
  destruct (truthy text); reflexivity.
Qed.

Lemma after_widgets_requests (client : bedrock_client) :
  requests (trace (after_widgets w client))
  = match submitted w with
    | Some s => if truthy s && model_id_present w then [request_for w s] else []
    | None => []
    end.
Proof.
  rewrite after_widgets_eq. cbv zeta. unfold submitted.
  destruct (sample_buttons_quiet w) as [_ Q].
  apply widgets_quiet in Q. destruct Q as (Q & _).
  destruct (button_clicked w (py "Convert")).
  - rewrite <- convert_clicked_requests with (client := client).
    destruct (result (convert_clicked w client _)); [|reflexivity].
    cbn [trace fst]. rewrite requests_app. cbn [app requests].
    rewrite Q. now rewrite app_nil_r.
  - cbn [ret result snd trace fst app requests]. exact Q.
Qed.

Lemma after_widgets_env_reads (client : bedrock_client) :
  env_reads (trace (after_widgets w client))
  = match submitted w with
    | Some s => if truthy s then [py "BEDROCK_MODEL_ID"] else []
    | None => []
    end.
Proof.
  rewrite after_widgets_eq. cbv zeta. unfold submitted.
  destruct (sample_buttons_quiet w) as [_ Q].
  apply widgets_quiet in Q. destruct Q as (_ & _ & _ & _ & Q).
  destruct (button_clicked w (py "Convert")).
  - rewrite <- convert_clicked_env_reads with (client := client).
    destruct (result (convert_clicked w client _)); [|reflexivity].
    cbn [trace fst]. rewrite env_reads_app. cbn [app env_reads].
    rewrite Q. now rewrite app_nil_r.
  - cbn [ret result snd trace fst app env_reads]. exact Q.
Qed.

Lemma main_requests :
  requests (trace (main w))
  = match result (initialize_bedrock_client w), submitted w with
    | Returned _, Some s =>
        if truthy s && model_id_present w then [request_for w s] else []
    | _, _ => []
    end.
Proof.
  rewrite main_eq. destruct (initialize_quiet w) as [Q _].
  destruct (initialize_bedrock_client w) as [t [client|]];
    cbn [trace result fst snd] in *.
  - rewrite !requests_app, Q. cbn [page_header requests app].
    rewrite (after_widgets_requests client). now destruct (submitted w).
  - rewrite requests_app, Q. reflexivity.
Qed.

Lemma main_env_reads :
  env_reads (trace (main w))
  = [py "AWS_ACCESS_KEY_ID"; py "AWS_SECRET_ACCESS_KEY"; py "AWS_REGION"]
      ++ match result (initialize_bedrock_client w), submitted w with
         | Returned _, Some s => if truthy s then [py "BEDROCK_MODEL_ID"] else []
         | _, _ => []
         end.
Proof.
  rewrite main_eq. destruct (initialize_quiet w) as [_ Q].
  destruct (initialize_bedrock_client w) as [t [client|]];
    cbn [trace result fst snd] in *.
  - rewrite !env_reads_app, Q. cbn [page_header env_reads app].
    rewrite (after_widgets_env_reads client). now destruct (submitted w).
  - rewrite env_reads_app, Q. reflexivity.
Qed.

End Observations.

Lemma eqb_false_neq (a b : pystr) : PyStr.eqb a b = false -> a <> b.
Proof.
  unfold PyStr.eqb. destruct (list_eq_dec N.eq_dec a b); [discriminate|].
  intros _. assumption.
Qed.

Lemma submitted_inv (w : world) (s : pystr) :
  submitted w = Some s ->
  button_clicked w (py "Convert") = true
  /\ text_area_value w STATEMENT_LABEL = s.
Proof.
  unfold submitted. destruct (button_clicked w (py "Convert"));
    [|discriminate].
  intros E. injection E as E. now split.
Qed.

Lemma main_after_submit (w : world) (client : bedrock_client) (s : pystr) :
  started w client -> submitted w = Some s -> s <> [] ->
  main w
  = let m := bedrock_llama_response w client s in
    (page_header ++ (credential_reads ++ [session_event w])
       ++ [EvTextArea STATEMENT_LABEL []; EvButton (py "Convert")]
       ++ trace (convert_clicked w client s)
       ++ match result m with
          | Returned _ =>
              [EvMarkdown (py "---"); EvSubheader (py "Sample Inputs:")]
                ++ trace (sample_buttons w)
          | Stopped => []
          end,
     match result m with
     | Returned _ => Returned tt
     | Stopped => Stopped
     end).
Proof.
  intros St Sub Hs. apply submitted_inv in Sub. destruct Sub as [Hb Ht].
  rewrite main_eq, (initialize_started w client St).
  rewrite after_widgets_eq, Hb, Ht. cbv zeta.
  rewrite (convert_clicked_nonempty w client s Hs). cbv zeta.
  cbn [result snd].
  destruct (result (bedrock_llama_response w client s)) as [r|];
    cbn [trace fst]; [reflexivity|].
  rewrite !app_nil_r. reflexivity.
Qed.

Lemma main_empty_submit (w : world) (client : bedrock_client) :
  started w client -> submitted w = Some [] ->
  main w
  = (page_header ++ (credential_reads ++ [session_event w])
       ++ [EvTextArea STATEMENT_LABEL []; EvButton (py "Convert");
           EvWarning EMPTY_INPUT_WARNING;
           EvMarkdown (py "---"); EvSubheader (py "Sample Inputs:")]
       ++ trace (sample_buttons w),
     Returned tt).
Proof.
  intros St Sub. apply submitted_inv in Sub. destruct Sub as [Hb Ht].
  rewrite main_eq, (initialize_started w client St).
  rewrite after_widgets_eq, Hb, Ht. cbv zeta.
  rewrite convert_clicked_empty. reflexivity.
Qed.

Lemma conclude_some (o : invoke_outcome) (r : pystr) :
  result (conclude o) = Returned (Some r) ->
  trace (conclude o) = []
  /\ (r = CONVERSION_FAILED
      \/ exists d g, o = Responds (PyDict d)
                     /\ dict_get d (py "generation") = PyStr g
                     /\ g <> [] /\ r = strip g).
Proof.
  destruct o as [v | code msg | e]; try discriminate.
  destruct v as [ | b | n | f | g | l | d]; try discriminate.
  cbn [conclude].
  destruct (dict_get d (py "generation")) as [ | b | n | f | g | l | d'] eqn:G;
    cbn [truth].
  all: try match goal with
       | |- context [if ?c then _ else _] => destruct c
       | |- context [match ?x with [] => _ | _ :: _ => _ end] => destruct x
       end.
  all: try discriminate.
  all: intros E; injection E as <-; split; [reflexivity|].
  all: try (left; reflexivity).
  right. exists d, (n :: g). repeat split; [exact G | discriminate].
Qed.

Lemma conclude_not_some (o : invoke_outcome) :
  result (conclude o) = Returned None ->
  exists msg, trace (conclude o) = [EvError msg].
Proof.
  destruct o as [v | code msg | e]; try (intros _; eexists; reflexivity).
  destruct v as [ | b | n | f | g | l | d]; try (intros _; eexists; reflexivity).
  cbn [conclude].
  destruct (dict_get d (py "generation")) as [ | b | n | f | g | l | d'];
    cbn [truth].
  all: try match goal with
       | |- context [if ?c then _ else _] => destruct c
       | |- context [match ?x with [] => _ | _ :: _ => _ end] => destruct x
       end.
  all: try discriminate.
  all: intros _; eexists; reflexivity.
Qed.

Lemma conclude_returns (o : invoke_outcome) :
  exists r, result (conclude o) = Returned r.
Proof.
  destruct o as [v | code msg | e]; try (eexists; reflexivity).
  destruct v as [ | b | n | f | g | l | d]; try (eexists; reflexivity).
  cbn [conclude].
  destruct (dict_get d (py "generation")) as [ | b | n | f | g | l | d'];
    cbn [truth].
  all: try match goal with
       | |- context [if ?c then _ else _] => destruct c
       | |- context [match ?x with [] => _ | _ :: _ => _ end] => destruct x
       end.
  all: eexists; reflexivity.
Qed.

(** * Properties of the specification *)

(** ** Prompt and request *)

(** C1, as the code has it: whenever [BEDROCK_MODEL_ID] is set and not
    empty, a call of [bedrock_llama_response] on a statement [s] (any [s],
    the non-empty ones included) issues one request, and the [prompt] entry
    of its body is the head of the source's f-string, then [s] unchanged,
    then the tail of the source's f-string. *)
Theorem prompt_is_source_template
    (w : world) (client : bedrock_client) (s : pystr) :
  model_id_present w = true ->
  exists r,
    requests (trace (bedrock_llama_response w client s)) = [r]
    /\ request_prompt r = PyStr (PROMPT_HEAD ++ s ++ PROMPT_TAIL).
Proof.
  intros H. exists (request_for w s). split.
  - rewrite llama_requests. now rewrite H.
  - reflexivity.
Qed.

Lemma prompt_is_source_template_witness :
  let w := run_with full_env (answering (generation (py "ok")))
             (py "x") (Some (py "Convert")) in
  model_id_present w = true
  /\ exists r,
       requests (trace (bedrock_llama_response w
                          (answering (generation (py "ok"))) (py "x"))) = [r]
       /\ request_prompt r = PyStr (PROMPT_HEAD ++ py "x" ++ PROMPT_TAIL).
Proof.
  cbv zeta. split; [reflexivity|].
  apply prompt_is_source_template. reflexivity.
Defined.

(** C1, as the specification words it, fails: the prompt sent for the
    statement [x] is not the specification's template with [x] substituted.
    The two differ in their words and not only in their line breaks, and the
    prompt does not end with the specification's trailer. *)
Lemma prompt_differs_from_spec_template :
  let w := run_with full_env (answering (generation (py "ok")))
             (py "x") (Some (py "Convert")) in
  let t := trace (bedrock_llama_response w
                    (answering (generation (py "ok"))) (py "x")) in
  py "x" <> []
  /\ map request_prompt (requests t) = [PyStr (prompt_of (py "x"))]
  /\ prompt_of (py "x") <> spec_prompt_of (py "x")
  /\ split (prompt_of (py "x")) <> split (spec_prompt_of (py "x"))
  /\ endswith SPEC_TEMPLATE_TAIL (prompt_of (py "x")) = false
  /\ contains (py "Formal theorem:") (prompt_of (py "x")) = false.
Proof.
  cbv zeta. split; [discriminate|]. split; [reflexivity|].
  split; [apply eqb_false_neq; vm_compute; reflexivity|].
  split; [|split; vm_compute; reflexivity].
  intros E.
  apply (f_equal (@List.length pystr)) in E.
  vm_compute in E. discriminate E.
Qed.

(** C6, as the code has it: a call of [bedrock_llama_response] issues
    exactly one request when [BEDROCK_MODEL_ID] is set and not empty, and
    that request carries the prompt with [max_gen_len = 300],
    [temperature = 0.2] and [top_p = 0.95]; when the variable is unset or
    empty the call issues no request. *)
Theorem one_request_with_fixed_parameters
    (w : world) (client : bedrock_client) (s : pystr) :
  requests (trace (bedrock_llama_response w client s))
  = if model_id_present w
    then [mkRequest
            (json_dumps
               (PyDict [(py "prompt", PyStr (prompt_of s));
                        (py "max_gen_len", PyInt 300);
                        (py "temperature", PyFloat 0.2);
                        (py "top_p", PyFloat 0.95)]))
            (environ w (py "BEDROCK_MODEL_ID"))
            (py "application/json") (py "application/json")]
    else [].
Proof. exact (llama_requests w client s). Qed.

(** C6, as stated, fails: with [BEDROCK_MODEL_ID] unset, a call on the
    statement [x] issues no request and the run is halted. *)
Lemma no_request_without_model_id :
  let c := answering (generation (py "ok")) in
  let w := run_with env_without_model c (py "x") (Some (py "Convert")) in
  requests (trace (bedrock_llama_response w c (py "x"))) = []
  /\ result (bedrock_llama_response w c (py "x")) = Stopped
  /\ errors (trace (bedrock_llama_response w c (py "x")))
     = [MODEL_ID_NOT_FOUND].
Proof. cbv zeta. repeat apply conj; vm_compute; reflexivity. Qed.

(** ** The generated text *)

(** C4: when the provider responds with a body whose [generation] is a
    string [g] that is not empty once stripped, the call returns [g.strip()],
    which is [g] without a whitespace-only prefix and suffix and which
    neither starts nor ends with whitespace; no error is shown. *)
Theorem generation_is_returned_stripped
    (w : world) (client : bedrock_client) (s : pystr)
    (d : list (pystr * pyval)) (g : pystr) :
  model_id_present w = true ->
  invoke_model client (request_for w s) = Responds (PyDict d) ->
  dict_get d (py "generation") = PyStr g ->
  strip g <> [] ->
  bedrock_llama_response w client s
  = ([EvGetenv (py "BEDROCK_MODEL_ID"); EvInvokeModel (request_for w s)],
     Returned (Some (strip g)))
  /\ (exists l r, g = l ++ strip g ++ r
                  /\ whitespace_only l = true /\ whitespace_only r = true)
  /\ no_outer_whitespace (strip g).
Proof.
  intros Hm Hr Hg Hs. split; [|split].
  - rewrite (llama_configured w client s Hm), Hr. cbn [conclude]. rewrite Hg.
    destruct g as [|c g]; [now elim Hs|]. reflexivity.
  - apply strip_split.
  - apply strip_trimmed.
Qed.

Lemma generation_is_returned_stripped_witness :
  let c := answering (generation (py "  foo  ")) in
  let w := run_with full_env c (py "x") (Some (py "Convert")) in
  strip (py "  foo  ") <> []
  /\ result (bedrock_llama_response w c (py "x")) = Returned (Some (py "foo")).
Proof.
  cbv zeta.
  assert (Hs : strip (py "  foo  ") <> []) by (vm_compute; discriminate).
  split; [exact Hs|].
  destruct (generation_is_returned_stripped
              (run_with full_env (answering (generation (py "  foo  ")))
                 (py "x") (Some (py "Convert")))
              (answering (generation (py "  foo  "))) (py "x")
              [(py "generation", PyStr (py "  foo  "))] (py "  foo  ")
              eq_refl eq_refl eq_refl Hs) as [E _].
  rewrite E. reflexivity.
Defined.

(** C3 at a generation of one space: the call returns the empty string,
    not the sentinel, although the generation is empty after trimming. *)
Theorem blank_generation_returns_empty_string :
  let c := answering (generation (py " ")) in
  let w := run_with full_env c (py "x") (Some (py "Convert")) in
  strip (py " ") = []
  /\ bedrock_llama_response w c (py "x")
     = ([EvGetenv (py "BEDROCK_MODEL_ID"); EvInvokeModel (request_for w (py "x"))],
        Returned (Some []))
  /\ [] <> CONVERSION_FAILED.
Proof.
  cbv zeta. repeat apply conj; [vm_compute; reflexivity ..|discriminate].
Qed.

(** A missing, [None] or empty [generation] yields the sentinel. *)
Lemma sentinel_on_missing_or_empty
    (w : world) (client : bedrock_client) (s : pystr)
    (d : list (pystr * pyval)) :
  model_id_present w = true ->
  invoke_model client (request_for w s) = Responds (PyDict d) ->
  dict_get d (py "generation") = PyNone
  \/ dict_get d (py "generation") = PyStr [] ->
  bedrock_llama_response w client s
  = ([EvGetenv (py "BEDROCK_MODEL_ID"); EvInvokeModel (request_for w s)],
     Returned (Some CONVERSION_FAILED)).
Proof.
  intros Hm Hr Hg.
  rewrite (llama_configured w client s Hm), Hr. cbn [conclude].
  destruct Hg as [-> | ->]; reflexivity.
Qed.

(** C10: a text returned by the call neither starts nor ends with
    whitespace; it is the sentinel or the stripped [generation] of the
    response. *)
Theorem returned_text_is_trimmed
    (w : world) (client : bedrock_client) (s r : pystr) :
  result (bedrock_llama_response w client s) = Returned (Some r) ->
  no_outer_whitespace r
  /\ (r = CONVERSION_FAILED
      \/ exists d g,
           invoke_model client (request_for w s) = Responds (PyDict d)
           /\ dict_get d (py "generation") = PyStr g
           /\ r = strip g).
Proof.
  intros H.
  destruct (truthy_opt (environ w (py "BEDROCK_MODEL_ID"))) eqn:Hm.
  - rewrite (llama_configured w client s Hm) in H. cbn [result snd] in H.
    apply conclude_some in H.
    destruct H as [_ [-> | (d & g & Ho & Hg & _ & ->)]].
    + split; [|now left].
      change CONVERSION_FAILED with (strip CONVERSION_FAILED).
      apply strip_trimmed.
    + split; [apply strip_trimmed|].
      right. exists d, g. now repeat split.
  - rewrite (llama_unconfigured w client s Hm) in H. discriminate H.
Qed.

Lemma returned_text_is_trimmed_witness :
  let c := answering (generation (py "  foo  ")) in
  let w := run_with full_env c (py "x") (Some (py "Convert")) in
  result (bedrock_llama_response w c (py "x")) = Returned (Some (py "foo"))
  /\ no_outer_whitespace (py "foo").
Proof.
  cbv zeta. split; [reflexivity|].
  exact (proj1 (returned_text_is_trimmed
                  (run_with full_env (answering (generation (py "  foo  ")))
                     (py "x") (Some (py "Convert")))
                  (answering (generation (py "  foo  "))) (py "x") (py "foo")
                  eq_refl)).
Defined.

(** ** Failures of the provider *)

(** C5: when the call raises a [ClientError] with code [code] and message
    [msg], the call shows one error that holds both, returns [None] and does
    not halt the run; the page then renders no result and the run goes on to
    its end, so the next submission is served by a fresh run. *)
Theorem provider_error_is_surfaced
    (w : world) (client : bedrock_client) (s code msg : pystr) :
  model_id_present w = true ->
  invoke_model client (request_for w s) = RaisesClientError code msg ->
  bedrock_llama_response w client s
  = ([EvGetenv (py "BEDROCK_MODEL_ID"); EvInvokeModel (request_for w s);
      EvError (py "AWS Bedrock API error: " ++ code ++ py " - " ++ msg)],
     Returned None)
  /\ (started w client -> submitted w = Some s -> s <> [] ->
      result (main w) = Returned tt
      /\ errors (trace (main w))
         = [py "AWS Bedrock API error: " ++ code ++ py " - " ++ msg]
      /\ rendered (trace (main w)) = []).
Proof.
  intros Hm Hr.
  assert (E : bedrock_llama_response w client s
              = ([EvGetenv (py "BEDROCK_MODEL_ID");
                  EvInvokeModel (request_for w s);
                  EvError (py "AWS Bedrock API error: " ++ code
                             ++ py " - " ++ msg)],
                 Returned None)).
  { rewrite (llama_configured w client s Hm), Hr. reflexivity. }
  split; [exact E|].
  intros St Sub Hs. rewrite (main_after_submit w client s St Sub Hs).
  cbv zeta. rewrite (convert_clicked_nonempty w client s Hs). cbv zeta.
  rewrite E. cbn [trace result fst snd].
  destruct (sample_buttons_quiet w) as [_ Q].
  apply widgets_quiet in Q. destruct Q as (_ & Qe & Qr & _).
  repeat split.
  - observe errors_app. now rewrite Qe.
  - observe rendered_app. now rewrite Qr.
Qed.

Lemma provider_error_is_surfaced_witness :
  let c := answering (RaisesClientError (py "ThrottlingException")
                        (py "rate exceeded")) in
  let w := run_with full_env c (py "x") (Some (py "Convert")) in
  result (bedrock_llama_response w c (py "x")) = Returned None
  /\ result (main w) = Returned tt
  /\ errors (trace (main w))
     = [py "AWS Bedrock API error: ThrottlingException - rate exceeded"].
Proof.
  cbv zeta.
  destruct (provider_error_is_surfaced
              (run_with full_env
                 (answering (RaisesClientError (py "ThrottlingException")
                               (py "rate exceeded")))
                 (py "x") (Some (py "Convert")))
              (answering (RaisesClientError (py "ThrottlingException")
                            (py "rate exceeded")))
              (py "x") (py "ThrottlingException") (py "rate exceeded")
              eq_refl eq_refl) as [E M].
  split; [now rewrite E|].
  destruct M as (R & Er & _).
  - split; reflexivity.
  - reflexivity.
  - discriminate.
  - split; [exact R|]. rewrite Er. reflexivity.
Defined.

(** ** The empty-input gate *)

(** C7: in a run where "Convert" is clicked while the text area is empty, no
    request is issued and [BEDROCK_MODEL_ID] is never read, which is the
    first thing [bedrock_llama_response] does, so the conversion call is not
    made; and when startup went through, the run shows the warning, no
    error and no result, and reaches its end. *)
Theorem empty_statement_is_not_sent (w : world) :
  submitted w = Some [] ->
  requests (trace (main w)) = []
  /\ ~ In (py "BEDROCK_MODEL_ID") (env_reads (trace (main w)))
  /\ (forall client, started w client ->
      main w
      = (page_header ++ (credential_reads ++ [session_event w])
           ++ [EvTextArea STATEMENT_LABEL []; EvButton (py "Convert");
               EvWarning EMPTY_INPUT_WARNING;
               EvMarkdown (py "---"); EvSubheader (py "Sample Inputs:")]
           ++ trace (sample_buttons w),
         Returned tt)
      /\ warnings (trace (main w)) = [EMPTY_INPUT_WARNING]).
Proof.
  intros Sub. split; [|split].
  - rewrite main_requests, Sub.
    now destruct (result (initialize_bedrock_client w)).
  - rewrite main_env_reads, Sub.
    assert (N : ~ In (py "BEDROCK_MODEL_ID")
                  [py "AWS_ACCESS_KEY_ID"; py "AWS_SECRET_ACCESS_KEY";
                   py "AWS_REGION"]).
    { intros [H | [H | [H | []]]]; vm_compute in H; discriminate H. }
    destruct (result (initialize_bedrock_client w)); cbn [truthy];
      now rewrite app_nil_r.
  - intros client St. split; [exact (main_empty_submit w client St Sub)|].
    rewrite (main_empty_submit w client St Sub). cbn [trace fst].
    destruct (sample_buttons_quiet w) as [_ Q].
    apply widgets_quiet in Q. destruct Q as (_ & _ & _ & Qw & _).
    observe warnings_app. now rewrite Qw.
Qed.

Lemma empty_statement_is_not_sent_witness :
  let c := answering (generation (py "ok")) in
  let w := run_with full_env c [] (Some (py "Convert")) in
  submitted w = Some []
  /\ requests (trace (main w)) = []
  /\ warnings (trace (main w)) = [EMPTY_INPUT_WARNING].
Proof.
  cbv zeta.
  destruct (empty_statement_is_not_sent
              (run_with full_env (answering (generation (py "ok"))) []
                 (Some (py "Convert"))) eq_refl) as (R & _ & M).
  split; [reflexivity|]. split; [exact R|].
  destruct (M (answering (generation (py "ok")))) as [_ W];
    [split; reflexivity | exact W].
Defined.

(** ** Whitespace statements *)

(** C9: a statement that is not empty and holds only whitespace passes the
    gate of [main]: when startup went through, [BEDROCK_MODEL_ID] is set and
    "Convert" is clicked on such a statement, exactly one request is issued
    and its prompt has the statement between the two halves of the
    template.  The string of one space is such a statement. *)
Theorem whitespace_statement_is_sent
    (w : world) (client : bedrock_client) (s : pystr) :
  s <> [] -> whitespace_only s = true ->
  started w client -> model_id_present w = true ->
  submitted w = Some s ->
  exists r,
    requests (trace (main w)) = [r]
    /\ request_prompt r = PyStr (PROMPT_HEAD ++ s ++ PROMPT_TAIL)
    /\ warnings (trace (main w)) = [].
Proof.
  intros Hs _ St Hm Sub. exists (request_for w s). split; [|split].
  - rewrite main_requests, Sub, (initialize_started w client St).
    cbn [result snd]. rewrite Hm.
    destruct s; [now elim Hs | reflexivity].
  - reflexivity.
  - rewrite (main_after_submit w client s St Sub Hs). cbv zeta.
    rewrite (convert_clicked_nonempty w client s Hs). cbv zeta.
    rewrite (llama_configured w client s Hm). cbn [trace result fst snd].
    destruct (sample_buttons_quiet w) as [_ Q].
    apply widgets_quiet in Q. destruct Q as (_ & _ & _ & Qw & _).
    destruct (conclude_trace (invoke_model client (request_for w s)))
      as (_ & _ & Cw & _).
    destruct (conclude_returns (invoke_model client (request_for w s)))
      as [r ->].
    destruct r as [text|]; [destruct (truthy text)|];
      observe warnings_app; now rewrite Cw, Qw.
Qed.

Lemma whitespace_statement_is_sent_witness :
  let c := answering (generation (py "ok")) in
  let w := run_with full_env c (py " ") (Some (py "Convert")) in
  py " " <> [] /\ whitespace_only (py " ") = true
  /\ exists r,
       requests (trace (main w)) = [r]
       /\ request_prompt r = PyStr (PROMPT_HEAD ++ py " " ++ PROMPT_TAIL)
       /\ warnings (trace (main w)) = [].
Proof.
  cbv zeta. split; [discriminate|]. split; [reflexivity|].
  apply (whitespace_statement_is_sent
           (run_with full_env (answering (generation (py "ok"))) (py " ")
              (Some (py "Convert")))
           (answering (generation (py "ok"))) (py " ")).
  - discriminate.
  - reflexivity.
  - split; reflexivity.
  - reflexivity.
  - reflexivity.
Defined.

(** ** Configuration *)

(** C2, as the code has it: startup reads the access key, the secret key
    and the region, and halts with an error, before any widget is drawn,
    when one of the three is unset or empty.  The model identifier is not
    read at startup: every conversion call reads it and, when it is unset or
    empty, shows an error and halts the run before the request.  Whichever
    of the four is missing, the run issues no request. *)
Theorem configuration_gate (w : world) :
  env_reads (trace (initialize_bedrock_client w))
  = [py "AWS_ACCESS_KEY_ID"; py "AWS_SECRET_ACCESS_KEY"; py "AWS_REGION"]
  /\ (credentials_present w = false ->
      main w
      = (page_header ++ credential_reads ++ [EvError CREDENTIALS_NOT_FOUND],
         Stopped))
  /\ (model_id_present w = false ->
      forall client s,
        bedrock_llama_response w client s
        = ([EvGetenv (py "BEDROCK_MODEL_ID"); EvError MODEL_ID_NOT_FOUND],
           Stopped))
  /\ (credentials_present w && model_id_present w = false ->
      requests (trace (main w)) = []).
Proof.
  split; [exact (proj2 (initialize_quiet w))|]. split; [|split].
  - intros H. rewrite main_eq, (initialize_without_credentials w H).
    reflexivity.
  - intros H client s. exact (llama_unconfigured w client s H).
  - intros H. rewrite main_requests.
    destruct (credentials_present w) eqn:Hc.
    + cbn [andb] in H. rewrite H.
      destruct (result (initialize_bedrock_client w)); [|reflexivity].
      destruct (submitted w) as [s|]; [|reflexivity].
      now rewrite andb_false_r.
    + now rewrite (initialize_without_credentials w Hc).
Qed.

Lemma configuration_gate_witness :
  let c := answering (generation (py "ok")) in
  let unset := run_with (env_of []) c (py "x") (Some (py "Convert")) in
  let no_model := run_with env_without_model c (py "x") (Some (py "Convert")) in
  credentials_present unset = false
  /\ result (main unset) = Stopped
  /\ model_id_present no_model = false
  /\ result (bedrock_llama_response no_model c (py "x")) = Stopped
  /\ requests (trace (main no_model)) = [].
Proof.
  cbv zeta.
  destruct (configuration_gate
              (run_with (env_of []) (answering (generation (py "ok")))
                 (py "x") (Some (py "Convert")))) as (_ & H1 & _).
  destruct (configuration_gate
              (run_with env_without_model (answering (generation (py "ok")))
                 (py "x") (Some (py "Convert")))) as (_ & _ & H2 & H3).
  split; [reflexivity|].
  split; [now rewrite (H1 eq_refl)|].
  split; [reflexivity|].
  split; [now rewrite (H2 eq_refl)|].
  exact (H3 eq_refl).
Defined.

(** C2, as stated, fails: with the three credentials set and the model
    identifier unset, a run in which nothing is clicked reads three
    variables only, shows no error and reaches its end. *)
Lemma startup_ignores_model_id :
  let c := answering (generation (py "ok")) in
  let w := run_with env_without_model c [] None in
  model_id_present w = false
  /\ result (main w) = Returned tt
  /\ env_reads (trace (main w))
     = [py "AWS_ACCESS_KEY_ID"; py "AWS_SECRET_ACCESS_KEY"; py "AWS_REGION"]
  /\ errors (trace (main w)) = [].
Proof. cbv zeta. repeat apply conj; vm_compute; reflexivity. Qed.

(** ** Result or failure *)

Lemma llama_errors (w : world) (client : bedrock_client) (s : pystr) :
  match result (bedrock_llama_response w client s) with
  | Returned (Some _) => errors (trace (bedrock_llama_response w client s)) = []
  | _ => exists msg,
           errors (trace (bedrock_llama_response w client s)) = [msg]
  end.
Proof.
  destruct (truthy_opt (environ w (py "BEDROCK_MODEL_ID"))) eqn:Hm.
  - rewrite (llama_configured w client s Hm). cbn [trace result fst snd errors].
    destruct (conclude_returns (invoke_model client (request_for w s)))
      as [[text|] R]; rewrite R.
    + now destruct (conclude_some _ _ R) as [-> _].
    + destruct (conclude_not_some _ R) as [msg ->]. now exists msg.
  - rewrite (llama_unconfigured w client s Hm). now eexists.
Qed.

(** What the page shows after a submission: a non-empty text and no error,
    or one error and no text, or, for an empty text, nothing. *)
Lemma shown_after_submit (w : world) (client : bedrock_client) (s : pystr) :
  started w client -> submitted w = Some s -> s <> [] ->
  match result (bedrock_llama_response w client s) with
  | Returned (Some text) =>
      errors (trace (main w)) = []
      /\ rendered (trace (main w)) = if truthy text then [text] else []
  | _ =>
      rendered (trace (main w)) = []
      /\ exists msg, errors (trace (main w)) = [msg]
  end.
Proof.
  intros St Sub Hs. rewrite (main_after_submit w client s St Sub Hs).
  cbv zeta. rewrite (convert_clicked_nonempty w client s Hs). cbv zeta.
  cbn [trace fst].
  destruct (sample_buttons_quiet w) as [_ Q].
  apply widgets_quiet in Q. destruct Q as (_ & Qe & Qr & _).
  assert (Lr : rendered (trace (bedrock_llama_response w client s)) = []).
  { destruct (truthy_opt (environ w (py "BEDROCK_MODEL_ID"))) eqn:Hm.
    - rewrite (llama_configured w client s Hm). cbn [trace fst rendered].
      now destruct (conclude_trace (invoke_model client (request_for w s)))
        as (_ & -> & _).
    - now rewrite (llama_unconfigured w client s Hm). }
  pose proof (llama_errors w client s) as Le.
  destruct (result (bedrock_llama_response w client s)) as [[text|]|].
  - split.
    + destruct (truthy text); observe errors_app; now rewrite Le, Qe.
    + destruct (truthy text); observe rendered_app; now rewrite Lr, Qr.
  - destruct Le as [msg Le]. split.
    + observe rendered_app. now rewrite Lr, Qr.
    + exists msg. observe errors_app. now rewrite Le, Qe.
  - destruct Le as [msg Le]. split.
    + observe rendered_app. now rewrite Lr.
    + exists msg. observe errors_app. now rewrite Le.
Qed.

(** C8 at a generation of one space: one request is issued, the run reaches
    its end, and the page shows neither a result nor an error nor a
    warning. *)
Theorem blank_generation_shows_nothing :
  let c := answering (generation (py " ")) in
  let w := run_with full_env c (py "x") (Some (py "Convert")) in
  List.length (requests (trace (main w))) = 1
  /\ result (main w) = Returned tt
  /\ rendered (trace (main w)) = []
  /\ errors (trace (main w)) = []
  /\ warnings (trace (main w)) = [].
Proof. cbv zeta. repeat apply conj; vm_compute; reflexivity. Qed.

(** The end-to-end scenario of the specification: the statement is sent
    inside the prompt and the generated theorem is what the page renders. *)
Example golden_ratio_scenario :
  let text := py "theorem golden_ratio_irrational : Irrational goldenRatio := by sorry" in
  let c := answering (generation text) in
  let w := run_with full_env c (py "The golden ratio is irrational.")
             (Some (py "Convert")) in
  map request_prompt (requests (trace (main w)))
  = [PyStr (prompt_of (py "The golden ratio is irrational."))]
  /\ rendered (trace (main w)) = [text]
  /\ errors (trace (main w)) = []
  /\ result (main w) = Returned tt.
Proof. cbv zeta. repeat apply conj; vm_compute; reflexivity. Qed.

(** * Further properties of the program *)

(** ** What a call and a submission leave in the trace *)

Lemma llama_quiet (w : world) (client : bedrock_client) (s : pystr) :
  rendered (trace (bedrock_llama_response w client s)) = []
  /\ warnings (trace (bedrock_llama_response w client s)) = [].
Proof.
  destruct (truthy_opt (environ w (py "BEDROCK_MODEL_ID"))) eqn:Hm.
  - rewrite (llama_configured w client s Hm).
    cbn [trace fst rendered warnings].
    destruct (conclude_trace (invoke_model client (request_for w s)))
      as (_ & Hr & Hw & _).
    now split.
  - rewrite (llama_unconfigured w client s Hm). now split.
Qed.

Section AfterSubmit.

Variables (w : world) (client : bedrock_client) (s : pystr).
Hypothesis St : started w client.
Hypothesis Sub : submitted w = Some s.
Hypothesis Hs : s <> [].

Lemma result_after_submit :
  result (main w)
  = match result (bedrock_llama_response w client s) with
    | Returned _ => Returned tt
    | Stopped => Stopped
    end.
Proof. now rewrite (main_after_submit w client s St Sub Hs). Qed.

Lemma errors_after_submit :
  errors (trace (main w))
  = errors (trace (bedrock_llama_response w client s)).
Proof.
  rewrite (main_after_submit w client s St Sub Hs). cbv zeta.
  rewrite (convert_clicked_nonempty w client s Hs). cbv zeta.
  cbn [trace fst].
  destruct (sample_buttons_quiet w) as [_ Q].
  apply widgets_quiet in Q. destruct Q as (_ & Qe & _).
  destruct (result (bedrock_llama_response w client s)) as [[text|]|];
    [destruct (truthy text)| |];
    observe errors_app; now rewrite ?Qe, ?app_nil_r.
Qed.

Lemma rendered_after_submit :
  rendered (trace (main w))
  = match result (bedrock_llama_response w client s) with
    | Returned (Some text) => if truthy text then [text] else []
    | _ => []
    end.
Proof.
  rewrite (main_after_submit w client s St Sub Hs). cbv zeta.
  rewrite (convert_clicked_nonempty w client s Hs). cbv zeta.
  cbn [trace fst].
  destruct (sample_buttons_quiet w) as [_ Q].
  apply widgets_quiet in Q. destruct Q as (_ & _ & Qr & _).
  destruct (llama_quiet w client s) as [Lr _].
  destruct (result (bedrock_llama_response w client s)) as [[text|]|];
    [destruct (truthy text)| |];
    observe rendered_app; now rewrite Lr, ?Qr.
Qed.

Lemma warnings_after_submit : warnings (trace (main w)) = [].
Proof.
  rewrite (main_after_submit w client s St Sub Hs). cbv zeta.
  rewrite (convert_clicked_nonempty w client s Hs). cbv zeta.
  cbn [trace fst].
  destruct (sample_buttons_quiet w) as [_ Q].
  apply widgets_quiet in Q. destruct Q as (_ & _ & _ & Qw & _).
  destruct (llama_quiet w client s) as [_ Lw].
  destruct (result (bedrock_llama_response w client s)) as [[text|]|];
    [destruct (truthy text)| |];
    observe warnings_app; now rewrite Lw, ?Qw.
Qed.

End AfterSubmit.

Lemma main_no_submit (w : world) (client : bedrock_client) :
  started w client -> submitted w = None ->
  main w
  = (page_header ++ (credential_reads ++ [session_event w])
       ++ [EvTextArea STATEMENT_LABEL []; EvButton (py "Convert");
           EvMarkdown (py "---"); EvSubheader (py "Sample Inputs:")]
       ++ trace (sample_buttons w),
     Returned tt).
Proof.
  intros St Sub.
  assert (Hb : button_clicked w (py "Convert") = false).
  { unfold submitted in Sub.
    now destruct (button_clicked w (py "Convert")). }
  rewrite main_eq, (initialize_started w client St).
  rewrite after_widgets_eq, Hb. reflexivity.
Qed.

Lemma main_session_failure (w : world) (str_e : pystr) :
  credentials_present w = true -> session_of w = inl str_e ->
  main w
  = (page_header ++ credential_reads
       ++ [session_event w;
           EvError (py "Failed to initialize AWS Bedrock client: " ++ str_e)],
     Stopped).
Proof.
  intros Hc Hs. rewrite main_eq, (initialize_with_credentials w Hc), Hs.
  reflexivity.
Qed.

(** ** Startup *)

(** X1: when the three credentials are set but creating the boto3 client
    raises, the run shows the exception after a fixed prefix and halts
    before the text area and the buttons are drawn. *)
Theorem session_failure_halts_startup (w : world) (str_e : pystr) :
  credentials_present w = true -> session_of w = inl str_e ->
  main w
  = (page_header ++ credential_reads
       ++ [session_event w;
           EvError (py "Failed to initialize AWS Bedrock client: " ++ str_e)],
     Stopped)
  /\ requests (trace (main w)) = [].
Proof.
  intros Hc Hs. split; [exact (main_session_failure w str_e Hc Hs)|].
  rewrite main_requests, (initialize_with_credentials w Hc), Hs. reflexivity.
Qed.

Lemma session_failure_halts_startup_witness :
  let w := run_without_session full_env (py "no such region") (py "x")
             (Some (py "Convert")) in
  credentials_present w = true
  /\ result (main w) = Stopped
  /\ errors (trace (main w))
     = [py "Failed to initialize AWS Bedrock client: no such region"].
Proof.
  cbv zeta.
  destruct (session_failure_halts_startup
              (run_without_session full_env (py "no such region") (py "x")
                 (Some (py "Convert")))
              (py "no such region") eq_refl eq_refl) as [E _].
  split; [reflexivity|]. rewrite E. split; vm_compute; reflexivity.
Defined.


(** X3: a non-empty statement submitted while [BEDROCK_MODEL_ID] is unset or
    empty ends the page at the error: the spinner is the last widget, and
    the rule, the "Sample Inputs:" heading and the sample buttons are not
    drawn. *)
Theorem missing_model_id_cuts_the_page
    (w : world) (client : bedrock_client) (s : pystr) :
  started w client -> submitted w = Some s -> s <> [] ->
  model_id_present w = false ->
  main w
  = (page_header ++ (credential_reads ++ [session_event w])
       ++ [EvTextArea STATEMENT_LABEL []; EvButton (py "Convert");
           EvSpinner (py "Converting...");
           EvGetenv (py "BEDROCK_MODEL_ID"); EvError MODEL_ID_NOT_FOUND],
     Stopped).
Proof.
  intros St Sub Hs Hm. rewrite (main_after_submit w client s St Sub Hs).
  cbv zeta. rewrite (convert_clicked_nonempty w client s Hs). cbv zeta.
  rewrite (llama_unconfigured w client s Hm). reflexivity.
Qed.

Lemma missing_model_id_cuts_the_page_witness :
  let c := answering (generation (py "ok")) in
  let w := run_with env_without_model c (py "x") (Some (py "Convert")) in
  model_id_present w = false
  /\ result (main w) = Stopped
  /\ errors (trace (main w)) = [MODEL_ID_NOT_FOUND].
Proof.
  cbv zeta. split; [reflexivity|].
  rewrite (missing_model_id_cuts_the_page
             (run_with env_without_model (answering (generation (py "ok")))
                (py "x") (Some (py "Convert")))
             (answering (generation (py "ok"))) (py "x")).
  - split; vm_compute; reflexivity.
  - split; reflexivity.
  - reflexivity.
  - discriminate.
  - reflexivity.
Defined.

(** ** Failures inside the call *)

(** X4: when the call, the reading of the body or its decoding raises an
    exception other than [ClientError], the call shows its text after a
    fixed prefix, returns [None] and does not halt; the page renders no
    result and the run reaches its end. *)
Theorem unexpected_exception_is_reported
    (w : world) (client : bedrock_client) (s str_e : pystr) :
  model_id_present w = true ->
  invoke_model client (request_for w s) = RaisesException str_e ->
  bedrock_llama_response w client s
  = ([EvGetenv (py "BEDROCK_MODEL_ID"); EvInvokeModel (request_for w s);
      EvError (py "An error occurred while calling the AWS Bedrock API: "
                 ++ str_e)],
     Returned None)
  /\ (started w client -> submitted w = Some s -> s <> [] ->
      result (main w) = Returned tt
      /\ errors (trace (main w))
         = [py "An error occurred while calling the AWS Bedrock API: "
              ++ str_e]
      /\ rendered (trace (main w)) = []).
Proof.
  intros Hm Hr.
  assert (E : bedrock_llama_response w client s
              = ([EvGetenv (py "BEDROCK_MODEL_ID");
                  EvInvokeModel (request_for w s);
                  EvError (py "An error occurred while calling the AWS Bedrock API: "
                             ++ str_e)],
                 Returned None)).
  { rewrite (llama_configured w client s Hm), Hr. reflexivity. }
  split; [exact E|]. intros St Sub Hs.
  rewrite (result_after_submit w client s St Sub Hs),
    (errors_after_submit w client s St Sub Hs),
    (rendered_after_submit w client s St Sub Hs), E.
  repeat split.
Qed.

Lemma unexpected_exception_is_reported_witness :
  let c := answering (RaisesException (py "timed out")) in
  let w := run_with full_env c (py "x") (Some (py "Convert")) in
  result (bedrock_llama_response w c (py "x")) = Returned None
  /\ errors (trace (main w))
     = [py "An error occurred while calling the AWS Bedrock API: timed out"].
Proof.
  cbv zeta.
  destruct (unexpected_exception_is_reported
              (run_with full_env (answering (RaisesException (py "timed out")))
                 (py "x") (Some (py "Convert")))
              (answering (RaisesException (py "timed out")))
              (py "x") (py "timed out") eq_refl eq_refl) as [E M].
  split; [now rewrite E|].
  destruct M as (_ & Er & _).
  - split; reflexivity.
  - reflexivity.
  - discriminate.
  - rewrite Er. reflexivity.
Defined.

(** X5: a [generation] that is truthy but not a string (a number, [true],
    a non-empty list or object) is not converted to text: the [strip] call
    fails, the failure is shown as an error naming the type, and the call
    returns [None]. *)
Theorem non_string_generation_is_reported
    (w : world) (client : bedrock_client) (s : pystr)
    (d : list (pystr * pyval)) :
  model_id_present w = true ->
  invoke_model client (request_for w s) = Responds (PyDict d) ->
  truth (dict_get d (py "generation")) = true ->
  is_str (dict_get d (py "generation")) = false ->
  bedrock_llama_response w client s
  = ([EvGetenv (py "BEDROCK_MODEL_ID"); EvInvokeModel (request_for w s);
      EvError (py "An error occurred while calling the AWS Bedrock API: '"
                 ++ type_name (dict_get d (py "generation"))
                 ++ py "' object has no attribute 'strip'")],
     Returned None).
Proof.
  intros Hm Hr Ht Hn.
  rewrite (llama_configured w client s Hm), Hr. cbn [conclude].
  destruct (dict_get d (py "generation")) as [ | b | n | f | g | l | d'];
    try discriminate Hn; try discriminate Ht; cbn [truth] in Ht |- *;
    rewrite ?Ht; reflexivity.
Qed.

Lemma non_string_generation_is_reported_witness :
  let c := answering (Responds (PyDict [(py "generation", PyInt 5)])) in
  let w := run_with full_env c (py "x") (Some (py "Convert")) in
  bedrock_llama_response w c (py "x")
  = ([EvGetenv (py "BEDROCK_MODEL_ID"); EvInvokeModel (request_for w (py "x"));
      EvError (py "An error occurred while calling the AWS Bedrock API: 'int' object has no attribute 'strip'")],
     Returned None).
Proof.
  cbv zeta.
  rewrite (non_string_generation_is_reported
             (run_with full_env
                (answering (Responds (PyDict [(py "generation", PyInt 5)])))
                (py "x") (Some (py "Convert")))
             (answering (Responds (PyDict [(py "generation", PyInt 5)])))
             (py "x") [(py "generation", PyInt 5)]
             eq_refl eq_refl eq_refl eq_refl).
  vm_compute. reflexivity.
Defined.

(** X6: a response body that decodes to anything but an object (a list, a
    string, a number, [null]) has no [get]: the failure is shown as an error
    naming the type, and the call returns [None]. *)
Theorem non_object_body_is_reported
    (w : world) (client : bedrock_client) (s : pystr) (v : pyval) :
  model_id_present w = true ->
  invoke_model client (request_for w s) = Responds v ->
  is_dict v = false ->
  bedrock_llama_response w client s
  = ([EvGetenv (py "BEDROCK_MODEL_ID"); EvInvokeModel (request_for w s);
      EvError (py "An error occurred while calling the AWS Bedrock API: '"
                 ++ type_name v ++ py "' object has no attribute 'get'")],
     Returned None).
Proof.
  intros Hm Hr Hv.
  rewrite (llama_configured w client s Hm), Hr.
  destruct v; try discriminate Hv; reflexivity.
Qed.

Lemma non_object_body_is_reported_witness :
  let c := answering (Responds (PyList [PyStr (py "theorem")])) in
  let w := run_with full_env c (py "x") (Some (py "Convert")) in
  bedrock_llama_response w c (py "x")
  = ([EvGetenv (py "BEDROCK_MODEL_ID"); EvInvokeModel (request_for w (py "x"));
      EvError (py "An error occurred while calling the AWS Bedrock API: 'list' object has no attribute 'get'")],
     Returned None).
Proof.
  cbv zeta.
  rewrite (non_object_body_is_reported
             (run_with full_env
                (answering (Responds (PyList [PyStr (py "theorem")])))
                (py "x") (Some (py "Convert")))
             (answering (Responds (PyList [PyStr (py "theorem")])))
             (py "x") (PyList [PyStr (py "theorem")])
             eq_refl eq_refl eq_refl).
  vm_compute. reflexivity.
Defined.

(** ** What the page renders *)

(** X7: a [generation] that is falsy, whatever its type (missing, [null],
    the empty string, [0], [0.0], [false], an empty list or object), makes
    the call return the sentinel without any error, and the page renders
    the sentinel in the result area as Lean code, the way it renders a
    generated theorem. *)
Theorem falsy_generation_renders_sentinel
    (w : world) (client : bedrock_client) (s : pystr)
    (d : list (pystr * pyval)) :
  model_id_present w = true ->
  invoke_model client (request_for w s) = Responds (PyDict d) ->
  truth (dict_get d (py "generation")) = false ->
  s <> [] ->
  bedrock_llama_response w client s
  = ([EvGetenv (py "BEDROCK_MODEL_ID"); EvInvokeModel (request_for w s)],
     Returned (Some CONVERSION_FAILED))
  /\ convert_clicked w client s
     = ([EvSpinner (py "Converting...");
         EvGetenv (py "BEDROCK_MODEL_ID"); EvInvokeModel (request_for w s);
         EvSubheader (py "Formal Theorem Statement:");
         EvCode (py "Conversion failed.") (py "lean")],
        Returned tt).
Proof.
  intros Hm Hr Ht Hs.
  assert (E : bedrock_llama_response w client s
              = ([EvGetenv (py "BEDROCK_MODEL_ID");
                  EvInvokeModel (request_for w s)],
                 Returned (Some CONVERSION_FAILED))).
  { rewrite (llama_configured w client s Hm), Hr. cbn [conclude].
    destruct (dict_get d (py "generation")) as [ | b | n | f | g | l | d'];
      cbn [truth] in Ht |- *; rewrite ?Ht; try reflexivity.
    destruct g; [reflexivity | discriminate Ht]. }
  split; [exact E|].
  rewrite (convert_clicked_nonempty w client s Hs). cbv zeta. rewrite E.
  reflexivity.
Qed.

Lemma falsy_generation_renders_sentinel_witness :
  let c := answering (Responds (PyDict [(py "generation", PyInt 0)])) in
  let w := run_with full_env c (py "x") (Some (py "Convert")) in
  truth (PyInt 0) = false
  /\ result (bedrock_llama_response w c (py "x"))
     = Returned (Some (py "Conversion failed."))
  /\ rendered (trace (convert_clicked w c (py "x")))
     = [py "Conversion failed."].
Proof.
  cbv zeta. split; [reflexivity|].
  destruct (falsy_generation_renders_sentinel
              (run_with full_env
                 (answering (Responds (PyDict [(py "generation", PyInt 0)])))
                 (py "x") (Some (py "Convert")))
              (answering (Responds (PyDict [(py "generation", PyInt 0)])))
              (py "x") [(py "generation", PyInt 0)]
              eq_refl eq_refl eq_refl) as [E C]; [discriminate|].
  rewrite E, C. split; reflexivity.
Defined.

(** X8: after a submission whose generation is a string that is not empty
    once stripped, the page draws the heading "Formal Theorem Statement:",
    renders exactly the stripped text as Lean code, shows no error and no
    warning, and the run reaches its end. *)
Theorem stripped_generation_is_rendered
    (w : world) (client : bedrock_client) (s : pystr)
    (d : list (pystr * pyval)) (g : pystr) :
  started w client -> submitted w = Some s -> s <> [] ->
  model_id_present w = true ->
  invoke_model client (request_for w s) = Responds (PyDict d) ->
  dict_get d (py "generation") = PyStr g ->
  strip g <> [] ->
  convert_clicked w client s
  = ([EvSpinner (py "Converting...");
      EvGetenv (py "BEDROCK_MODEL_ID"); EvInvokeModel (request_for w s);
      EvSubheader (py "Formal Theorem Statement:");
      EvCode (strip g) (py "lean")],
     Returned tt)
  /\ result (main w) = Returned tt
  /\ rendered (trace (main w)) = [strip g]
  /\ errors (trace (main w)) = []
  /\ warnings (trace (main w)) = [].
Proof.
  intros St Sub Hs Hm Hr Hg Hn.
  assert (E : bedrock_llama_response w client s
              = ([EvGetenv (py "BEDROCK_MODEL_ID");
                  EvInvokeModel (request_for w s)],
                 Returned (Some (strip g)))).
  { rewrite (llama_configured w client s Hm), Hr. cbn [conclude]. rewrite Hg.
    destruct g as [|c g]; [now elim Hn | reflexivity]. }
  assert (T : truthy (strip g) = true).
  { destruct (strip g); [now elim Hn | reflexivity]. }
  split; [|split; [|split; [|split]]].
  - rewrite (convert_clicked_nonempty w client s Hs). cbv zeta.
    rewrite E. cbn [trace result fst snd]. now rewrite T.
  - now rewrite (result_after_submit w client s St Sub Hs), E.
  - rewrite (rendered_after_submit w client s St Sub Hs), E.
    cbn [result snd]. now rewrite T.
  - now rewrite (errors_after_submit w client s St Sub Hs), E.
  - exact (warnings_after_submit w client s St Sub Hs).
Qed.

Lemma stripped_generation_is_rendered_witness :
  let c := answering (generation (py "  theorem t : 1 = 1  ")) in
  let w := run_with full_env c (py "one is one") (Some (py "Convert")) in
  started w c
  /\ rendered (trace (main w)) = [py "theorem t : 1 = 1"].
Proof.
  cbv zeta.
  assert (St : started
                 (run_with full_env
                    (answering (generation (py "  theorem t : 1 = 1  ")))
                    (py "one is one") (Some (py "Convert")))
                 (answering (generation (py "  theorem t : 1 = 1  "))))
    by (split; reflexivity).
  split; [exact St|].
  destruct (stripped_generation_is_rendered
              (run_with full_env
                 (answering (generation (py "  theorem t : 1 = 1  ")))
                 (py "one is one") (Some (py "Convert")))
              (answering (generation (py "  theorem t : 1 = 1  ")))
              (py "one is one")
              [(py "generation", PyStr (py "  theorem t : 1 = 1  "))]
              (py "  theorem t : 1 = 1  ") St eq_refl)
    as (_ & _ & R & _).
  - discriminate.
  - reflexivity.
  - reflexivity.
  - reflexivity.
  - vm_compute. discriminate.
  - rewrite R. vm_compute. reflexivity.
Defined.

(** ** Invariants of a run *)

(** X9: no run issues more than one request, whatever the environment, the
    widgets and the provider do. *)
Theorem at_most_one_request_per_run (w : world) :
  List.length (requests (trace (main w))) <= 1.
Proof.
  rewrite main_requests.
  destruct (result (initialize_bedrock_client w)); [|apply Nat.le_0_l].
  destruct (submitted w) as [s|]; [|apply Nat.le_0_l].
  destruct (truthy s && model_id_present w);
    [apply Nat.le_refl | apply Nat.le_0_l].
Qed.

(** X10: a run in which "Convert" is not clicked converts nothing, whatever
    the text area holds and whichever sample buttons are clicked: it issues
    no request, does not read [BEDROCK_MODEL_ID], and shows no result, no
    error and no warning. *)
Theorem no_conversion_without_convert_click
    (w : world) (client : bedrock_client) :
  started w client -> button_clicked w (py "Convert") = false ->
  requests (trace (main w)) = []
  /\ ~ In (py "BEDROCK_MODEL_ID") (env_reads (trace (main w)))
  /\ messages (trace (main w)) = 0
  /\ result (main w) = Returned tt.
Proof.
  intros St Hb.
  assert (Sub : submitted w = None) by (unfold submitted; now rewrite Hb).
  split; [|split; [|split]].
  - rewrite main_requests, Sub.
    now destruct (result (initialize_bedrock_client w)).
  - rewrite main_env_reads, Sub.
    assert (N : ~ In (py "BEDROCK_MODEL_ID")
                  [py "AWS_ACCESS_KEY_ID"; py "AWS_SECRET_ACCESS_KEY";
                   py "AWS_REGION"]).
    { intros [H | [H | [H | []]]]; vm_compute in H; discriminate H. }
    destruct (result (initialize_bedrock_client w)); now rewrite app_nil_r.
  - rewrite (main_no_submit w client St Sub). cbn [trace fst].
    destruct (sample_buttons_quiet w) as [_ Q].
    apply widgets_quiet in Q. destruct Q as (_ & Qe & Qr & Qw & _).
    unfold messages.
    observe rendered_app. observe errors_app. observe warnings_app.
    now rewrite Qe, Qr, Qw.
  - now rewrite (main_no_submit w client St Sub).
Qed.

Lemma no_conversion_without_convert_click_witness :
  let c := answering (generation (py "ok")) in
  let w := run_with full_env c (py "x")
             (Some (py "Try: The golden ratio is irrational.")) in
  button_clicked w (py "Try: The golden ratio is irrational.") = true
  /\ requests (trace (main w)) = []
  /\ messages (trace (main w)) = 0.
Proof.
  cbv zeta. split; [reflexivity|].
  destruct (no_conversion_without_convert_click
              (run_with full_env (answering (generation (py "ok"))) (py "x")
                 (Some (py "Try: The golden ratio is irrational.")))
              (answering (generation (py "ok"))))
    as (R & _ & M & _).
  - split; reflexivity.
  - reflexivity.
  - split; [exact R | exact M].
Defined.

(** X11: a run shows at most one message: one rendered result, or one
    error, or one warning, or none of them; in particular never a result
    together with an error. *)
Theorem at_most_one_message_per_run (w : world) :
  messages (trace (main w)) <= 1.
Proof.
  destruct (credentials_present w) eqn:Hc.
  - destruct (session_of w) as [e | client] eqn:Hs.
    + rewrite (main_session_failure w e Hc Hs). cbn [trace fst].
      unfold messages.
      observe rendered_app. observe errors_app. observe warnings_app.
      apply Nat.le_refl.
    + assert (St : started w client) by now split.
      destruct (sample_buttons_quiet w) as [_ Q].
      apply widgets_quiet in Q. destruct Q as (_ & Qe & Qr & Qw & _).
      destruct (submitted w) as [[|c s]|] eqn:Sub.
      * rewrite (main_empty_submit w client St Sub). cbn [trace fst].
        unfold messages.
        observe rendered_app. observe errors_app. observe warnings_app.
        rewrite Qe, Qr, Qw. apply Nat.le_refl.
      * assert (Hn : c :: s <> []) by discriminate.
        unfold messages.
        rewrite (rendered_after_submit w client (c :: s) St Sub Hn),
          (errors_after_submit w client (c :: s) St Sub Hn),
          (warnings_after_submit w client (c :: s) St Sub Hn).
        pose proof (llama_errors w client (c :: s)) as Le.
        destruct (result (bedrock_llama_response w client (c :: s)))
          as [[text|]|].
        -- rewrite Le. destruct (truthy text); cbn; lia.
        -- destruct Le as [msg ->]. cbn. lia.
        -- destruct Le as [msg ->]. cbn. lia.
      * rewrite (main_no_submit w client St Sub). cbn [trace fst].
        unfold messages.
        observe rendered_app. observe errors_app. observe warnings_app.
        rewrite Qe, Qr, Qw. apply Nat.le_0_l.
  - rewrite main_eq, (initialize_without_credentials w Hc). cbn [trace fst].
    unfold messages.
    observe rendered_app. observe errors_app. observe warnings_app.
    apply Nat.le_refl.
Qed.

(** ** The prompt *)

Lemma single_request_prompt_inj
    (key : pystr) (rest : list (pystr * pyval)) (p1 p2 : pystr)
    (m : option pystr) (a c : pystr) :
  [mkRequest (json_dumps (PyDict ((key, PyStr p1) :: rest))) m a c]
  = [mkRequest (json_dumps (PyDict ((key, PyStr p2) :: rest))) m a c] ->
  p1 = p2.
Proof. intros E. now injection E. Qed.

Lemma prompt_of_inj (s1 s2 : pystr) : prompt_of s1 = prompt_of s2 -> s1 = s2.
Proof.
  unfold prompt_of. intros E.
  apply app_inv_head in E. now apply app_inv_tail in E.
Qed.

(** X12: the request determines the statement: with [BEDROCK_MODEL_ID]
    set, two calls that issue the same requests were given the same
    statement, so the template never merges two inputs. *)
Theorem request_determines_statement
    (w : world) (client : bedrock_client) (s1 s2 : pystr) :
  model_id_present w = true ->
  requests (trace (bedrock_llama_response w client s1))
  = requests (trace (bedrock_llama_response w client s2)) ->
  s1 = s2.
Proof.
  intros Hm. rewrite !llama_requests, Hm. intros E.
  apply prompt_of_inj. unfold request_for, payload in E.
  now apply single_request_prompt_inj in E.
Qed.

Lemma request_determines_statement_witness :
  let c := answering (generation (py "ok")) in
  let w := run_with full_env c (py "x") (Some (py "Convert")) in
  model_id_present w = true /\ py "x" = py "x".
Proof.
  cbv zeta. split; [reflexivity|].
  exact (request_determines_statement
           (run_with full_env (answering (generation (py "ok"))) (py "x")
              (Some (py "Convert")))
           (answering (generation (py "ok"))) (py "x") (py "x")
           eq_refl eq_refl).
Defined.

(** ** The sample buttons *)

Lemma sample_buttons_rows (w : world) (l : list pystr) :
  for_each l (fun sample =>
    clicked <- st_button w (py "Try: " ++ sample) ;;
    if clicked then st_text_area w (py "Informal statement:") sample ;; ret tt
    else ret tt)
  = (flat_map (sample_row w) l, Returned tt).
Proof.
  induction l as [|x l IH]; [reflexivity|].
  cbn [for_each flat_map]. rewrite IH. unfold sample_row.
  run_script. destruct (button_clicked w _); reflexivity.
Qed.

(** X13: the sample section draws one button per sample, in the order of
    the list, and a text area holding a sample is drawn exactly when the
    button of that sample is clicked; the section never halts the run. *)
Theorem sample_area_iff_clicked (w : world) (label value : pystr) :
  sample_buttons w = (flat_map (sample_row w) samples, Returned tt)
  /\ (In (EvTextArea label value) (trace (sample_buttons w))
      <-> label = py "Informal statement:"
          /\ In value samples
          /\ button_clicked w (py "Try: " ++ value) = true).
Proof.
  assert (E : sample_buttons w = (flat_map (sample_row w) samples, Returned tt))
    by exact (sample_buttons_rows w samples).
  split; [exact E|]. rewrite E. cbn [trace fst]. rewrite in_flat_map.
  unfold sample_row. split.
  - intros (x & Hx & [H | H]); [discriminate H|].
    destruct (button_clicked w (py "Try: " ++ x)) eqn:Hb; [|now destruct H].
    destruct H as [H | []]. injection H as <- <-. now repeat split.
  - intros (-> & Hv & Hb). exists value. split; [exact Hv|].
    right. rewrite Hb. now left.
Qed.

Lemma sample_area_iff_clicked_witness :
  let sample := py "The golden ratio is irrational." in
  let w := run_with full_env (answering (generation (py "ok"))) (py "x")
             (Some (py "Try: " ++ sample)) in
  button_clicked w (py "Try: " ++ sample) = true
  /\ In (EvTextArea (py "Informal statement:") sample)
        (trace (sample_buttons w)).
Proof.
  cbv zeta. split; [reflexivity|].
  apply (proj2 (sample_area_iff_clicked
                  (run_with full_env (answering (generation (py "ok")))
                     (py "x")
                     (Some (py "Try: "
                              ++ py "The golden ratio is irrational.")))
                  (py "Informal statement:")
                  (py "The golden ratio is irrational."))).
  split; [reflexivity|]. split; [now left | reflexivity].
Defined.
